(** * GA Eats: the geospatial core (geospatial.server)

    A shallow embedding of the module [geospatial.server] (the part of
    [src/app/types/models.ts] under that heading): the haversine distance,
    the distance formatter and the four PostGIS-backed proximity queries,
    and of the loaders of the four routes that call them
    ([app/routes/api.restaurants.nearby.ts], the loader of
    /api/airports/nearby, [app/routes/api.airports.$code.ts] and
    [app/routes/map.tsx]), followed by the properties the specification
    states about them and by further properties of the code.

    - JavaScript numbers are IEEE 754 binary64 values ([spec_float] with
      precision 53 and maximal exponent 1024); [+ - * /] and [Math.sqrt] are
      the correctly rounded operations of [SpecFloat].
    - [Math.sin], [Math.cos] and [Math.atan2] are "implementation-approximated"
      in ECMAScript: they are fields of a [MathObject] and every property that
      depends on them names the clause it uses.
    - [ST_DistanceSphere] belongs to PostGIS and is a parameter of the queries.
    - An [async] function returns a [result]: [Ok] for a fulfilled promise,
      [Err] for a rejected one.
    - [parseFloat] and [parseInt] are fields of a [GlobalObject]; a request
      is the list of its query parameters. *)

From Stdlib Require Import ZArith QArith Qround List String Ascii Bool Lia.
From Stdlib Require Import Sorted Permutation SpecFloat.
Import ListNotations.

Open Scope Z_scope.

(** ** JavaScript numbers *)

Module JsNumber.

Definition number := spec_float.

Definition prec : Z := 53.
Definition emax : Z := 1024.

(** Values a JavaScript engine can hold: canonical mantissa, bounded
    exponent. *)
Definition well_formed (x : number) : Prop := valid_binary prec emax x = true.

Definition add : number -> number -> number := SFadd prec emax.
Definition sub : number -> number -> number := SFsub prec emax.
Definition mul : number -> number -> number := SFmul prec emax.
Definition div : number -> number -> number := SFdiv prec emax.
Definition neg : number -> number := SFopp.

(** [x < y], [x <= y] of JavaScript: false as soon as one side is NaN. *)
Definition ltb : number -> number -> bool := SFltb.
Definition leb : number -> number -> bool := SFleb.

Definition NaN : number := S754_nan.
Definition zero : number := S754_zero false.

(** The number denoted by an integer literal, and by [m * 2^e]. *)
Definition of_Z (z : Z) : number := binary_normalize prec emax z 0 false.
Definition dyadic (m e : Z) : number := binary_normalize prec emax m e false.

Definition isNaN (x : number) : bool :=
  match x with S754_nan => true | _ => false end.

Definition isFinite (x : number) : bool :=
  match x with S754_zero _ | S754_finite _ _ _ => true | _ => false end.

(** The real number a finite value stands for, as a rational. *)
Definition to_Q (x : number) : Q :=
  match x with
  | S754_finite s m e =>
      match e with
      | Zneg k => Qmake (cond_Zopp s (Zpos m)) (Pos.pow 2 k)
      | _ => Qmake (cond_Zopp s (Z.shiftl (Zpos m) e)) 1
      end
  | _ => 0%Q
  end.

(** A finite value whose exponent is at most [E] and whose magnitude is below
    [2^D]. *)
Definition bounded_by (E D : Z) (x : number) : Prop :=
  match x with
  | S754_zero _ => True
  | S754_finite _ m e => e <= E /\ Zpos (digits2_pos m) + e <= D
  | _ => False
  end.

End JsNumber.

Import JsNumber.

Declare Scope js_scope.
Delimit Scope js_scope with js.
Infix "+" := add : js_scope.
Infix "-" := sub : js_scope.
Infix "*" := mul : js_scope.
Infix "/" := div : js_scope.
Infix "<" := ltb : js_scope.
Infix "<=" := leb : js_scope.

(** ** The Math object *)

Module JsMath.

(** [Math.PI]: the binary64 value nearest to pi, 0x1.921fb54442d18p+1. *)
Definition PI : number := S754_finite false 7074237752028440 (-51).

(** [Math.sqrt(x)] is the correctly rounded square root. *)
Definition sqrt : number -> number := SFsqrt prec emax.

(** [Math.round(x)]: NaN, the infinities and integers are returned as they
    are; otherwise the integer nearest to [x], the larger one on a tie;
    a result of zero keeps the sign of [x]. *)
Definition round (x : number) : number :=
  match x with
  | S754_finite s m e =>
      if 0 <=? e then x
      else
        let n := Z.shiftr (cond_Zopp s (Zpos m) + Z.shiftl 1 (- e - 1)) (- e) in
        if n =? 0 then S754_zero s else of_Z n
  | _ => x
  end.

(** The functions ECMAScript leaves to the implementation. *)
Record MathObject := {
  sin : number -> number;
  cos : number -> number;
  atan2 : number -> number -> number
}.

End JsMath.

(** ** Number to string conversions *)

Module NumberPrototype.

Definition digit (d : Z) : ascii := ascii_of_N (48 + Z.to_N d).

(** The decimal digits of [n >= 0], most significant first. Each step
    divides by ten, so [fuel] beyond the binary length of [n] is enough. *)
Fixpoint digits_fuel (fuel : nat) (n : Z) : string :=
  match fuel with
  | O => EmptyString
  | S fuel' =>
      append (if n <? 10 then EmptyString else digits_fuel fuel' (n / 10))
             (String (digit (n mod 10)) EmptyString)
  end.

Definition digits (n : Z) : string :=
  digits_fuel (S (Z.to_nat (Z.log2 n))) n.

(** [Some v] when [x] is finite and its value is the integer [v]. *)
Definition integer_value (x : number) : option Z :=
  match x with
  | S754_zero _ => Some 0
  | S754_finite s m e =>
      if 0 <=? e then Some (cond_Zopp s (Z.shiftl (Zpos m) e))
      else if Z.land (Zpos m) (Z.ones (- e)) =? 0
           then Some (cond_Zopp s (Z.shiftr (Zpos m) (- e)))
           else None
  | _ => None
  end.

(** [Number::toString(x, 10)], as template literals apply it. Zero prints
    as "0" whatever its sign and an integer below 2^53 in magnitude prints
    as its decimal digits. The other finite values need the shortest
    round-trip digit generation, which is not modelled: [None]. *)
Definition toString (x : number) : option string :=
  match x with
  | S754_nan => Some "NaN"%string
  | S754_infinity s => Some (if s then "-Infinity" else "Infinity")%string
  | S754_zero _ => Some "0"%string
  | S754_finite s _ _ =>
      match integer_value x with
      | Some v =>
          if Z.abs v <? 2 ^ 53
          then Some ((if s then "-" else "") ++ digits (Z.abs v))%string
          else None
      | None => None
      end
  end.

Fixpoint zeros (n : nat) : string :=
  match n with O => EmptyString | S n' => String "0"%char (zeros n') end.

(** The integer [n] for which [n / 10^f - x] is as close to zero as
    possible, the larger one if there are two; [x = m * 2^e > 0]. *)
Definition scaled_nearest (m : positive) (e : Z) (f : nat) : Z :=
  let M := Zpos m * 10 ^ Z.of_nat f in
  if 0 <=? e then Z.shiftl M e
  else Z.shiftr (M + Z.shiftl 1 (- e - 1)) (- e).

(** [x >= 10^21] for [x = m * 2^e]. *)
Definition at_least_1e21 (m : positive) (e : Z) : bool :=
  if 0 <=? e then 10 ^ 21 <=? Z.shiftl (Zpos m) e
  else Z.shiftl (10 ^ 21) (- e) <=? Zpos m.

(** The last steps of [toFixed]: the digit string [m] of [n] is padded with
    zeros on the left up to [f + 1] characters and a point is put before
    its last [f] characters. *)
Definition insert_point (f : nat) (m : string) : string :=
  match f with
  | O => m
  | _ =>
      let k := String.length m in
      let m := if (k <=? f)%nat then (zeros (f + 1 - k) ++ m)%string else m in
      let k := if (k <=? f)%nat then (f + 1)%nat else k in
      (substring 0 (k - f) m ++ "." ++ substring (k - f) f m)%string
  end.

(** [Number.prototype.toFixed(fractionDigits)]. *)
Definition toFixed (x : number) (fractionDigits : nat) : option string :=
  let f := fractionDigits in
  match x with
  | S754_nan | S754_infinity _ => toString x
  | S754_zero _ => Some (insert_point f "0"%string)
  | S754_finite s m e =>
      let sign := (if s then "-" else "")%string in
      if at_least_1e21 m e
      then option_map (append sign) (toString (SFabs x))
      else
        let n := scaled_nearest m e f in
        Some (sign ++ insert_point f (if (n =? 0)%Z then "0" else digits n))%string
  end.

End NumberPrototype.


(** ** Promises *)

(** What a rejected promise carries: an [Error] thrown by the module itself,
    or the error the database reports for a raw query. *)
Inductive exn :=
| Error (message : string)
| QueryError (message : string).

Inductive result (A : Type) :=
| Ok (value : A)
| Err (e : exn).

Arguments Ok {A} value.
Arguments Err {A} e.

(** A parameter with a default value: the default applies when the caller
    leaves the argument out. *)
Definition default {A : Type} (d : A) (arg : option A) : A :=
  match arg with Some a => a | None => d end.

(** ** Geographic points and the tables *)

Record GeoPoint := { latitude : number; longitude : number }.

(** Rows of the "restaurants" and "airports" tables. [location] is the
    geography(Point, 4326) column: [ST_Y] reads its latitude and [ST_X] its
    longitude. Timestamps are kept as integers. *)
Module Restaurant.
Record t := {
  id : Z;
  googlePlaceId : option string;
  name : string;
  description : option string;
  cuisine : option string;
  rating : number;
  address : string;
  city : string;
  state : option string;
  country : string;
  location : GeoPoint;
  createdAt : Z;
  updatedAt : Z
}.
End Restaurant.

Module Airport.
Record t := {
  id : Z;
  code : string;
  name : string;
  city : string;
  state : option string;
  country : string;
  location : GeoPoint;
  createdAt : Z;
  updatedAt : Z
}.
End Airport.

(** The rows the two proximity queries select. *)
Module RestaurantWithDistance.
Record t := {
  id : Z;
  googlePlaceId : option string;
  name : string;
  description : option string;
  cuisine : option string;
  rating : number;
  address : string;
  city : string;
  state : option string;
  country : string;
  latitude : number;
  longitude : number;
  distance : number;
  createdAt : Z;
  updatedAt : Z
}.
End RestaurantWithDistance.

Module AirportWithDistance.
Record t := {
  id : Z;
  code : string;
  name : string;
  city : string;
  state : option string;
  country : string;
  latitude : number;
  longitude : number;
  distance : number;
  createdAt : Z;
  updatedAt : Z
}.
End AirportWithDistance.

(** The data a Prisma client reads. *)
Record PrismaClient := {
  restaurants : list Restaurant.t;
  airports : list Airport.t
}.

(** ** The fragment of PostgreSQL the raw queries use *)

Module Pg.

Definition ST_Y (g : GeoPoint) : number := latitude g.
Definition ST_X (g : GeoPoint) : number := longitude g.
Definition ST_MakePoint (x y : number) : GeoPoint :=
  {| latitude := y; longitude := x |}.

(** Comparison of float8 values: NaN is equal to itself and greater than
    every other value; otherwise the IEEE comparison. *)
Definition float8_le (x y : number) : bool :=
  match x, y with
  | _, S754_nan => true
  | S754_nan, _ => false
  | _, _ => SFleb x y
  end.

Definition float8_ge (x y : number) : bool := float8_le y x.

(** Position of a value in the float8 order, compared lexicographically. *)
Definition rank (x : number) : Z * Z * Z :=
  match x with
  | S754_infinity true => (-2, 0, 0)
  | S754_finite true m e => (-1, - e, - Zpos m)
  | S754_zero _ => (0, 0, 0)
  | S754_finite false m e => (1, e, Zpos m)
  | S754_infinity false => (2, 0, 0)
  | S754_nan => (3, 0, 0)
  end.

Definition lex_le (p q : Z * Z * Z) : Prop :=
  let '(a, b, c) := p in
  let '(a', b', c') := q in
  a < a' \/ (a = a' /\ (b < b' \/ (b = b' /\ c <= c'))).

(** [UPPER] as it acts on text written in ASCII: the letters a to z become
    A to Z. What it does to other characters follows the locale of the
    database and is not modelled: the properties that rest on the outcome of
    the comparison are stated for codes written in ASCII, in a locale that
    maps the ASCII letters in this way. *)
Definition upper_char (c : ascii) : ascii :=
  let n := nat_of_ascii c in
  if ((97 <=? n) && (n <=? 122))%nat then ascii_of_nat (n - 32) else c.

Fixpoint UPPER (s : string) : string :=
  match s with
  | EmptyString => EmptyString
  | String c s' => String (upper_char c) (UPPER s')
  end.

(** [ORDER BY key ASC]. SQL leaves the order of rows with equal keys open;
    here they stay in table order. The properties below hold for every
    such order; the one that compares two answers asks for keys that
    differ. *)
Section OrderBy.
Context {A : Type} (key : A -> number).

Fixpoint insert (x : A) (rows : list A) : list A :=
  match rows with
  | [] => [x]
  | y :: rows' =>
      if float8_le (key x) (key y) then x :: y :: rows'
      else y :: insert x rows'
  end.

Fixpoint order_by_asc (rows : list A) : list A :=
  match rows with
  | [] => []
  | x :: rows' => insert x (order_by_asc rows')
  end.
End OrderBy.

(** [LIMIT n]: the count is a bigint. A negative count is an error of the
    query, and so is one that does not fit in 63 bits. *)
Definition limit {A : Type} (n : Z) (rows : list A) : result (list A) :=
  if n <? 0 then Err (QueryError "LIMIT must not be negative")
  else if 2 ^ 63 <=? n then Err (QueryError "value out of range for bigint")
  else Ok (firstn (Z.to_nat n) rows).

End Pg.

(** ** geospatial.server *)

Module Geospatial.

Import JsMath.

(** Convert degrees to radians. *)
Definition toRadians (degrees : number) : number :=
  ((degrees * PI) / of_Z 180)%js.

Section Haversine.
Variable Math : MathObject.

(** Distance in kilometers between two points, by the haversine
    formula. *)
Definition calculateHaversineDistance (point1 point2 : GeoPoint) : number :=
  let R := of_Z 6371 in
  let dLat := toRadians (latitude point2 - latitude point1)%js in
  let dLon := toRadians (longitude point2 - longitude point1)%js in
  let a :=
    (sin Math (dLat / of_Z 2) * sin Math (dLat / of_Z 2) +
     cos Math (toRadians (latitude point1)) *
       cos Math (toRadians (latitude point2)) *
       sin Math (dLon / of_Z 2) *
       sin Math (dLon / of_Z 2))%js in
  let c :=
    (of_Z 2 * atan2 Math (sqrt a) (sqrt (of_Z 1 - a)))%js in
  (R * c)%js.
End Haversine.

(** Format a distance in meters for display. [None] only where
    [NumberPrototype.toString] is not modelled. *)
Definition formatDistance (distanceMeters : number) : option string :=
  if (distanceMeters < of_Z 1000)%js then
    option_map (fun s => s ++ " m")%string
               (NumberPrototype.toString (round distanceMeters))
  else
    let km := (distanceMeters / of_Z 1000)%js in
    option_map (fun s => s ++ " km")%string (NumberPrototype.toFixed km 1).

Section Queries.
(** [ST_DistanceSphere(g1, g2)] of PostGIS, in meters. *)
Variable ST_DistanceSphere : GeoPoint -> GeoPoint -> number.

(** Restaurants within [radiusKm] of [point] rated at least [minRating],
    nearest first, at most [limit] of them. *)
Definition findRestaurantsNearby (prisma : PrismaClient) (point : GeoPoint)
    (radiusKm minRating : option number) (limit : option Z)
  : result (list RestaurantWithDistance.t) :=
  let radiusKm := default (of_Z 5) radiusKm in
  let minRating := default (of_Z 4) minRating in
  let limit := default 20 limit in
  let radiusMeters := (radiusKm * of_Z 1000)%js in
  let center := Pg.ST_MakePoint (longitude point) (latitude point) in
  let where_ (r : Restaurant.t) :=
    Pg.float8_ge (Restaurant.rating r) minRating &&
    Pg.float8_le (ST_DistanceSphere (Restaurant.location r) center)
                 radiusMeters in
  let select (r : Restaurant.t) :=
    {| RestaurantWithDistance.id := Restaurant.id r;
       RestaurantWithDistance.googlePlaceId := Restaurant.googlePlaceId r;
       RestaurantWithDistance.name := Restaurant.name r;
       RestaurantWithDistance.description := Restaurant.description r;
       RestaurantWithDistance.cuisine := Restaurant.cuisine r;
       RestaurantWithDistance.rating := Restaurant.rating r;
       RestaurantWithDistance.address := Restaurant.address r;
       RestaurantWithDistance.city := Restaurant.city r;
       RestaurantWithDistance.state := Restaurant.state r;
       RestaurantWithDistance.country := Restaurant.country r;
       RestaurantWithDistance.latitude := Pg.ST_Y (Restaurant.location r);
       RestaurantWithDistance.longitude := Pg.ST_X (Restaurant.location r);
       RestaurantWithDistance.distance :=
         ST_DistanceSphere (Restaurant.location r) center;
       RestaurantWithDistance.createdAt := Restaurant.createdAt r;
       RestaurantWithDistance.updatedAt := Restaurant.updatedAt r |} in
  Pg.limit limit
    (Pg.order_by_asc RestaurantWithDistance.distance
       (map select (filter where_ (restaurants prisma)))).

(** Airports within [radiusKm] of [point], nearest first, at most
    [limit] of them. *)
Definition findAirportsNearby (prisma : PrismaClient) (point : GeoPoint)
    (radiusKm : option number) (limit : option Z)
  : result (list AirportWithDistance.t) :=
  let radiusKm := default (of_Z 50) radiusKm in
  let limit := default 20 limit in
  let radiusMeters := (radiusKm * of_Z 1000)%js in
  let center := Pg.ST_MakePoint (longitude point) (latitude point) in
  let where_ (a : Airport.t) :=
    Pg.float8_le (ST_DistanceSphere (Airport.location a) center)
                 radiusMeters in
  let select (a : Airport.t) :=
    {| AirportWithDistance.id := Airport.id a;
       AirportWithDistance.code := Airport.code a;
       AirportWithDistance.name := Airport.name a;
       AirportWithDistance.city := Airport.city a;
       AirportWithDistance.state := Airport.state a;
       AirportWithDistance.country := Airport.country a;
       AirportWithDistance.latitude := Pg.ST_Y (Airport.location a);
       AirportWithDistance.longitude := Pg.ST_X (Airport.location a);
       AirportWithDistance.distance :=
         ST_DistanceSphere (Airport.location a) center;
       AirportWithDistance.createdAt := Airport.createdAt a;
       AirportWithDistance.updatedAt := Airport.updatedAt a |} in
  Pg.limit limit
    (Pg.order_by_asc AirportWithDistance.distance
       (map select (filter where_ (airports prisma)))).

(** The nearest airport within 500 km, or [None] (null). *)
Definition findNearestAirport (prisma : PrismaClient) (point : GeoPoint)
  : result (option AirportWithDistance.t) :=
  match findAirportsNearby prisma point (Some (of_Z 500)) (Some 1) with
  | Err e => Err e
  | Ok results => Ok (nth_error results 0)
  end.

(** Restaurants near the airport with the given code. *)
Definition findRestaurantsNearAirport (prisma : PrismaClient)
    (airportCode : string) (radiusKm minRating : option number)
  : result (list RestaurantWithDistance.t) :=
  let radiusKm := default (of_Z 5) radiusKm in
  let minRating := default (of_Z 4) minRating in
  let where_ (a : Airport.t) :=
    String.eqb (Pg.UPPER (Airport.code a)) (Pg.UPPER airportCode) in
  let select (a : Airport.t) :=
    {| latitude := Pg.ST_Y (Airport.location a);
       longitude := Pg.ST_X (Airport.location a) |} in
  match Pg.limit 1 (map select (filter where_ (airports prisma))) with
  | Err e => Err e
  | Ok airport =>
      match airport with
      | [] => Err (Error ("Airport not found: " ++ airportCode))
      | airportLocation :: _ =>
          findRestaurantsNearby prisma airportLocation
            (Some radiusKm) (Some minRating) None
      end
  end.
End Queries.

End Geospatial.

(** ** Requests and responses *)

(** The functions of the global object the route handlers call. Both turn
    the text of a query parameter into a number, NaN when it does not start
    with a numeral; [parseInt] returns integers only, apart from NaN and the
    infinities. *)
Record GlobalObject := {
  parseFloat : string -> number;
  parseInt : string -> Z -> number
}.

(** [url.searchParams]: the name-value pairs of the query string, in the
    order they were written. *)
Module URLSearchParams.

Definition t := list (string * string).

(** [get(name)]: the first value given for [name], or null. *)
Fixpoint get (searchParams : t) (name : string) : option string :=
  match searchParams with
  | [] => None
  | (n, v) :: rest => if String.eqb n name then Some v else get rest name
  end.

End URLSearchParams.

(** [value || fallback] on a string that may be null: null and the empty
    string are falsy. *)
Definition or_else (value : option string) (fallback : string) : string :=
  match value with
  | Some (String c s) => String c s
  | _ => fallback
  end.

(** [Response.json(data, { status })]; the status is 200 when none is
    given. *)
Module Response.

Record t (Body : Type) := { status : Z; body : Body }.

Arguments status {Body} _.
Arguments body {Body} _.

Definition json {Body : Type} (data : Body) (status : option Z) : t Body :=
  {| status := default 200 status; body := data |}.

End Response.

(** ** The route /api/restaurants/nearby *)

Module ApiRestaurantsNearby.

Module Search.
Record t := {
  latitude : number;
  longitude : number;
  radiusKm : number;
  minRating : number;
  limit : number
}.
End Search.

Inductive Body :=
| Failure (error message : string) (example : option string)
| Success (restaurants : list RestaurantWithDistance.t) (search : Search.t)
          (count : Z).

Section Loader.
Variable ST_DistanceSphere : GeoPoint -> GeoPoint -> number.
Variable global : GlobalObject.

(** The query is modelled for a limit that is an integer. What the database
    driver makes of another one (NaN, an infinity) is left open: the answer
    of [findRestaurantsNearby] to such a call is this parameter. *)
Variable other_limit :
  PrismaClient -> GeoPoint -> number -> number -> number ->
  result (list RestaurantWithDistance.t).

(** Handles GET requests; [prisma] is the client the module imports. The
    line written to the console when the query fails is not part of the
    answer. *)
Definition loader (prisma : PrismaClient) (searchParams : URLSearchParams.t)
  : Response.t Body :=
  let lat := parseFloat global
               (or_else (URLSearchParams.get searchParams "lat") EmptyString) in
  let lng := parseFloat global
               (or_else (URLSearchParams.get searchParams "lng") EmptyString) in
  let distance := parseFloat global
               (or_else (URLSearchParams.get searchParams "distance") "5.0") in
  let minRating := parseFloat global
               (or_else (URLSearchParams.get searchParams "minRating") "4.0") in
  let limit := parseInt global
               (or_else (URLSearchParams.get searchParams "limit") "20") 10 in
  if isNaN lat || isNaN lng then
    Response.json
      (Failure "Invalid parameters"
         "Both 'lat' and 'lng' query parameters are required and must be valid numbers"
         (Some "/api/restaurants/nearby?lat=37.7749&lng=-122.4194&distance=5"%string))
      (Some 400)
  else if (lat < of_Z (-90))%js || (of_Z 90 < lat)%js then
    Response.json
      (Failure "Invalid latitude" "Latitude must be between -90 and 90" None)
      (Some 400)
  else if (lng < of_Z (-180))%js || (of_Z 180 < lng)%js then
    Response.json
      (Failure "Invalid longitude" "Longitude must be between -180 and 180" None)
      (Some 400)
  else if (distance <= of_Z 0)%js || (of_Z 500 < distance)%js then
    Response.json
      (Failure "Invalid distance" "Distance must be between 0 and 500 kilometers"
         None)
      (Some 400)
  else
    let point := {| latitude := lat; longitude := lng |} in
    let query :=
      match NumberPrototype.integer_value limit with
      | Some n =>
          Geospatial.findRestaurantsNearby ST_DistanceSphere prisma point
            (Some distance) (Some minRating) (Some n)
      | None => other_limit prisma point distance minRating limit
      end in
    match query with
    | Ok restaurants =>
        Response.json
          (Success restaurants
             {| Search.latitude := lat; Search.longitude := lng;
                Search.radiusKm := distance; Search.minRating := minRating;
                Search.limit := limit |}
             (Z.of_nat (List.length restaurants)))
          None
    | Err _ =>
        Response.json
          (Failure "Database error"
             "Failed to fetch restaurants. Please try again later." None)
          (Some 500)
    end.
End Loader.

End ApiRestaurantsNearby.

(** ** The route /api/airports/nearby *)

Module ApiAirportsNearby.

Module Search.
Record t := {
  latitude : number;
  longitude : number;
  radiusKm : number;
  limit : number
}.
End Search.

Inductive Body :=
| Failure (error message : string) (example : option string)
| Success (airports : list AirportWithDistance.t) (search : Search.t)
          (count : Z).

Section Loader.
Variable ST_DistanceSphere : GeoPoint -> GeoPoint -> number.
Variable global : GlobalObject.

(** The answer of [findAirportsNearby] to a limit that is not an integer,
    as in [ApiRestaurantsNearby]. *)
Variable other_limit :
  PrismaClient -> GeoPoint -> number -> number ->
  result (list AirportWithDistance.t).

Definition loader (prisma : PrismaClient) (searchParams : URLSearchParams.t)
  : Response.t Body :=
  let lat := parseFloat global
               (or_else (URLSearchParams.get searchParams "lat") EmptyString) in
  let lng := parseFloat global
               (or_else (URLSearchParams.get searchParams "lng") EmptyString) in
  let distance := parseFloat global
               (or_else (URLSearchParams.get searchParams "distance") "50.0") in
  let limit := parseInt global
               (or_else (URLSearchParams.get searchParams "limit") "20") 10 in
  if isNaN lat || isNaN lng then
    Response.json
      (Failure "Invalid parameters"
         "Both 'lat' and 'lng' query parameters are required and must be valid numbers"
         (Some "/api/airports/nearby?lat=37.7749&lng=-122.4194&distance=50"%string))
      (Some 400)
  else if (lat < of_Z (-90))%js || (of_Z 90 < lat)%js then
    Response.json
      (Failure "Invalid latitude" "Latitude must be between -90 and 90" None)
      (Some 400)
  else if (lng < of_Z (-180))%js || (of_Z 180 < lng)%js then
    Response.json
      (Failure "Invalid longitude" "Longitude must be between -180 and 180" None)
      (Some 400)
  else if (distance <= of_Z 0)%js || (of_Z 1000 < distance)%js then
    Response.json
      (Failure "Invalid distance" "Distance must be between 0 and 1000 kilometers"
         None)
      (Some 400)
  else
    let point := {| latitude := lat; longitude := lng |} in
    let query :=
      match NumberPrototype.integer_value limit with
      | Some n =>
          Geospatial.findAirportsNearby ST_DistanceSphere prisma point
            (Some distance) (Some n)
      | None => other_limit prisma point distance limit
      end in
    match query with
    | Ok airports =>
        Response.json
          (Success airports
             {| Search.latitude := lat; Search.longitude := lng;
                Search.radiusKm := distance; Search.limit := limit |}
             (Z.of_nat (List.length airports)))
          None
    | Err _ =>
        Response.json
          (Failure "Database error"
             "Failed to fetch airports. Please try again later." None)
          (Some 500)
    end.
End Loader.

End ApiAirportsNearby.

(** ** The route /api/airports/:code *)

(** [String.prototype.trim], on strings whose characters have codes below
    256: the white space and line terminators among them are TAB, LF, VT, FF,
    CR, the space and the no-break space. *)
Module StringPrototype.

Definition is_white_space (c : ascii) : bool :=
  let n := nat_of_ascii c in
  ((9 <=? n) && (n <=? 13) || (n =? 32) || (n =? 160))%nat.

Fixpoint trimStart (s : string) : string :=
  match s with
  | EmptyString => EmptyString
  | String c s' => if is_white_space c then trimStart s' else s
  end.

Fixpoint trimEnd (s : string) : string :=
  match s with
  | EmptyString => EmptyString
  | String c s' =>
      match trimEnd s' with
      | EmptyString => if is_white_space c then EmptyString else String c EmptyString
      | t => String c t
      end
  end.

Definition trim (s : string) : string := trimEnd (trimStart s).

(** A string made of white space only; the empty string is one. *)
Definition all_white_space (s : string) : Prop :=
  Forall (fun c => is_white_space c = true) (list_ascii_of_string s).

End StringPrototype.

Module ApiAirportsCode.

(** A row of the loader's own query. *)
Module AirportRow.
Record t := {
  id : Z;
  code : string;
  name : string;
  city : string;
  state : option string;
  country : string;
  latitude : number;
  longitude : number;
  createdAt : Z;
  updatedAt : Z
}.
End AirportRow.

(** The [airport] object of the answer. *)
Module AirportSummary.
Record t := {
  code : string;
  name : string;
  city : string;
  state : option string;
  country : string;
  latitude : number;
  longitude : number
}.
End AirportSummary.

Module Search.
Record t := { radiusKm : number; minRating : number }.
End Search.

Inductive Body :=
| Failure (error message : string) (example suggestion : option string)
| Success (airport : AirportSummary.t)
          (restaurants : list RestaurantWithDistance.t)
          (search : Search.t) (count : Z).

Section Loader.
Variable ST_DistanceSphere : GeoPoint -> GeoPoint -> number.
Variable global : GlobalObject.

Definition loader (prisma : PrismaClient) (code : string)
    (searchParams : URLSearchParams.t) : Response.t Body :=
  if match code with EmptyString => true | _ => false end
     || (String.length (StringPrototype.trim code) =? 0)%nat then
    Response.json
      (Failure "Invalid airport code" "Airport code is required"
         (Some "/api/airports/KSFO"%string) None)
      (Some 400)
  else
  let distance := parseFloat global
               (or_else (URLSearchParams.get searchParams "distance") "5.0") in
  let minRating := parseFloat global
               (or_else (URLSearchParams.get searchParams "minRating") "4.0") in
  if (distance <= of_Z 0)%js || (of_Z 100 < distance)%js then
    Response.json
      (Failure "Invalid distance" "Distance must be between 0 and 100 kilometers"
         None None)
      (Some 400)
  else
    let failed :=
      Response.json
        (Failure "Database error"
           "Failed to fetch airport data. Please try again later." None None)
        (Some 500) in
    let where_ (a : Airport.t) :=
      String.eqb (Pg.UPPER (Airport.code a)) (Pg.UPPER code) in
    let select (a : Airport.t) :=
      {| AirportRow.id := Airport.id a;
         AirportRow.code := Airport.code a;
         AirportRow.name := Airport.name a;
         AirportRow.city := Airport.city a;
         AirportRow.state := Airport.state a;
         AirportRow.country := Airport.country a;
         AirportRow.latitude := Pg.ST_Y (Airport.location a);
         AirportRow.longitude := Pg.ST_X (Airport.location a);
         AirportRow.createdAt := Airport.createdAt a;
         AirportRow.updatedAt := Airport.updatedAt a |} in
    match Pg.limit 1 (map select (filter where_ (airports prisma))) with
    | Err _ => failed
    | Ok airportResult =>
        match airportResult with
        | [] =>
            Response.json
              (Failure "Airport not found"
                 ("No airport found with code: " ++ code) None
                 (Some "Check the airport code and try again. Use IATA or ICAO codes (e.g., KSFO, SFO)."%string))
              (Some 404)
        | airport :: _ =>
            match Geospatial.findRestaurantsNearAirport ST_DistanceSphere prisma
                    code (Some distance) (Some minRating) with
            | Err _ => failed
            | Ok restaurants =>
                Response.json
                  (Success
                     {| AirportSummary.code := AirportRow.code airport;
                        AirportSummary.name := AirportRow.name airport;
                        AirportSummary.city := AirportRow.city airport;
                        AirportSummary.state := AirportRow.state airport;
                        AirportSummary.country := AirportRow.country airport;
                        AirportSummary.latitude := AirportRow.latitude airport;
                        AirportSummary.longitude := AirportRow.longitude airport |}
                     restaurants
                     {| Search.radiusKm := distance;
                        Search.minRating := minRating |}
                     (Z.of_nat (List.length restaurants)))
                  None
            end
        end
    end.
End Loader.

End ApiAirportsCode.

(** ** The route /map *)

Module MapRoute.

Module Position.
Record t := { lat : number; lng : number }.
End Position.

(** The [type] of a point of interest. *)
Inductive POIType := restaurant | airport.

(** The [data] of a point of interest: the row it was made from; a
    restaurant's [googlePlaceId] is a string there. *)
Inductive POIData :=
| RestaurantData (r : RestaurantWithDistance.t)
| AirportData (a : AirportWithDistance.t).

Module POI.
Record t := {
  id : Z;
  position : Position.t;
  title : string;
  type : POIType;
  data : POIData
}.
End POI.

Module LoaderData.
Record t := {
  pois : list POI.t;
  center : Position.t;
  restaurants : Z;
  airports : Z
}.
End LoaderData.

Definition restaurantPOI (r : RestaurantWithDistance.t) : POI.t :=
  {| POI.id := RestaurantWithDistance.id r;
     POI.position :=
       {| Position.lat := RestaurantWithDistance.latitude r;
          Position.lng := RestaurantWithDistance.longitude r |};
     POI.title := RestaurantWithDistance.name r;
     POI.type := restaurant;
     POI.data :=
       RestaurantData
         {| RestaurantWithDistance.id := RestaurantWithDistance.id r;
            RestaurantWithDistance.googlePlaceId :=
              Some (default EmptyString (RestaurantWithDistance.googlePlaceId r));
            RestaurantWithDistance.name := RestaurantWithDistance.name r;
            RestaurantWithDistance.description :=
              RestaurantWithDistance.description r;
            RestaurantWithDistance.cuisine := RestaurantWithDistance.cuisine r;
            RestaurantWithDistance.rating := RestaurantWithDistance.rating r;
            RestaurantWithDistance.address := RestaurantWithDistance.address r;
            RestaurantWithDistance.city := RestaurantWithDistance.city r;
            RestaurantWithDistance.state := RestaurantWithDistance.state r;
            RestaurantWithDistance.country := RestaurantWithDistance.country r;
            RestaurantWithDistance.latitude := RestaurantWithDistance.latitude r;
            RestaurantWithDistance.longitude :=
              RestaurantWithDistance.longitude r;
            RestaurantWithDistance.distance := RestaurantWithDistance.distance r;
            RestaurantWithDistance.createdAt :=
              RestaurantWithDistance.createdAt r;
            RestaurantWithDistance.updatedAt :=
              RestaurantWithDistance.updatedAt r |} |}.

Definition airportPOI (a : AirportWithDistance.t) : POI.t :=
  {| POI.id := AirportWithDistance.id a;
     POI.position :=
       {| Position.lat := AirportWithDistance.latitude a;
          Position.lng := AirportWithDistance.longitude a |};
     POI.title := AirportWithDistance.code a ++ " - " ++ AirportWithDistance.name a;
     POI.type := airport;
     POI.data := AirportData a |}.

Section Loader.
Variable ST_DistanceSphere : GeoPoint -> GeoPoint -> number.
Variable global : GlobalObject.

(** Fetches the restaurants and the airports around the center; when one
    of the two queries fails the answer holds no point of interest. *)
Definition loader (prisma : PrismaClient) (searchParams : URLSearchParams.t)
  : LoaderData.t :=
  let lat := parseFloat global
               (or_else (URLSearchParams.get searchParams "lat") "39.8283") in
  let lng := parseFloat global
               (or_else (URLSearchParams.get searchParams "lng") "-98.5795") in
  let radius := parseFloat global
               (or_else (URLSearchParams.get searchParams "radius") "50") in
  let point := {| latitude := lat; longitude := lng |} in
  let center := {| Position.lat := lat; Position.lng := lng |} in
  match Geospatial.findRestaurantsNearby ST_DistanceSphere prisma point
          (Some radius) (Some (of_Z 4)) (Some 50),
        Geospatial.findAirportsNearby ST_DistanceSphere prisma point
          (Some (radius * of_Z 2)%js) (Some 20) with
  | Ok restaurants, Ok airports =>
      let restaurantPOIs := map restaurantPOI restaurants in
      let airportPOIs := map airportPOI airports in
      {| LoaderData.pois := restaurantPOIs ++ airportPOIs;
         LoaderData.center := center;
         LoaderData.restaurants := Z.of_nat (List.length restaurants);
         LoaderData.airports := Z.of_nat (List.length airports) |}
  | _, _ =>
      {| LoaderData.pois := [];
         LoaderData.center := center;
         LoaderData.restaurants := 0;
         LoaderData.airports := 0 |}
  end.
End Loader.

End MapRoute.

(** ** What the properties below ask of [Math.sin], [Math.cos], [Math.atan2] *)

Module ES.

Import JsMath.

(** ECMAScript, Math.sin: "if n is +0, return n". *)
Definition sin_zero (Math : MathObject) : Prop :=
  sin Math zero = zero.

(** ECMAScript, Math.atan2(y, x): "if y is +0 and x is greater than +0, return
    +0". *)
Definition atan2_zero_positive (Math : MathObject) : Prop :=
  forall x, (zero < x)%js = true -> atan2 Math zero x = zero.

(** ECMAScript, Math.atan2(y, x): "if either is NaN, return NaN". *)
Definition atan2_NaN (Math : MathObject) : Prop :=
  forall y x, isNaN y || isNaN x = true -> atan2 Math y x = NaN.

(** The cosine of a finite number is a number between -1 and 1. ECMAScript
    asks only for an approximation of the cosine; no implementation in use
    leaves the interval. *)
Definition cos_range (Math : MathObject) : Prop :=
  forall x, isFinite x = true ->
    well_formed (cos Math x) /\
    (of_Z (-1) <= cos Math x)%js = true /\ (cos Math x <= of_Z 1)%js = true.

(** Math.sin is odd. ECMAScript does not demand it; the implementations
    in use (fdlibm and its descendants) reduce the argument by magnitude
    and restore the sign. *)
Definition sin_odd (Math : MathObject) : Prop :=
  forall x, sin Math (neg x) = neg (sin Math x).

(** ECMAScript, Math.sin: "if x is NaN, return NaN". *)
Definition sin_NaN (Math : MathObject) : Prop :=
  sin Math NaN = NaN.

(** NaN, +0, a positive number or +Infinity: a value whose sign is not
    set. *)
Definition sign_clear (x : number) : bool :=
  match x with
  | S754_nan => true
  | S754_zero s | S754_infinity s | S754_finite s _ _ => negb s
  end.

(** A value that is not a finite number below the least exponent of
    binary64, 2^-1074. *)
Definition above_emin (x : number) : Prop :=
  match x with
  | S754_finite _ _ e => -1074 <= e
  | _ => True
  end.

(** Math.atan2(y, x) is not negative when the sign of [y] is not set: in
    ECMAScript it is then NaN, +0, or an approximation of an angle between 0
    and pi. *)
Definition atan2_upper_half (Math : MathObject) : Prop :=
  forall y x, sign_clear y = true -> (atan2 Math y x < zero)%js = false.

End ES.

(** ** The specification's own definitions *)

Module Spec.

Import JsMath.

(** GeoPoint: latitude in [-90, 90], longitude in [-180, 180]. *)
Definition valid_point (p : GeoPoint) : Prop :=
  well_formed (latitude p) /\ well_formed (longitude p) /\
  (of_Z (-90) <= latitude p)%js = true /\ (latitude p <= of_Z 90)%js = true /\
  (of_Z (-180) <= longitude p)%js = true /\ (longitude p <= of_Z 180)%js = true.

(** The haversine algorithm of section 4.1, written from its five lines.
    [sin^2(x)] is [sin x * sin x] and a product of several factors is taken
    from left to right. *)
Section Haversine.
Variable Math : MathObject.

Definition R : number := of_Z 6371.

Definition radians (degrees : number) : number :=
  (degrees * PI / of_Z 180)%js.

Definition haversine_a (lat1 lat2 dLat dLon : number) : number :=
  (sin Math (dLat / of_Z 2) * sin Math (dLat / of_Z 2) +
   cos Math (radians lat1) * cos Math (radians lat2) *
     sin Math (dLon / of_Z 2) * sin Math (dLon / of_Z 2))%js.

Definition haversine_c (a : number) : number :=
  (of_Z 2 * atan2 Math (sqrt a) (sqrt (of_Z 1 - a)))%js.

Definition haversine (lat1 lon1 lat2 lon2 : number) : number :=
  let dLat := radians (lat2 - lat1)%js in
  let dLon := radians (lon2 - lon1)%js in
  (R * haversine_c (haversine_a lat1 lat2 dLat dLon))%js.
End Haversine.

(** Codes that are equal when the case of their ASCII letters is
    ignored. *)
Definition lower_char (c : ascii) : ascii :=
  let n := nat_of_ascii c in
  if ((65 <=? n) && (n <=? 90))%nat then ascii_of_nat (n + 32) else c.

Fixpoint lower (s : string) : string :=
  match s with
  | EmptyString => EmptyString
  | String c s' => String (lower_char c) (lower s')
  end.

Definition same_code (code1 code2 : string) : Prop := lower code1 = lower code2.

(** A code written in ASCII characters, as the IATA and ICAO codes are, and
    a table whose codes all are. *)
Definition ascii_code (code : string) : Prop :=
  forallb (fun c => (nat_of_ascii c <? 128)%nat) (list_ascii_of_string code)
  = true.

Definition ascii_codes (table : list Airport.t) : Prop :=
  forall a, In a table -> ascii_code (Airport.code a).

(** The airport a code resolves to: the first row of the table, in table
    order, that has the code up to case. *)
Definition resolves (table : list Airport.t) (code : string) (a : Airport.t) : Prop :=
  exists before after,
    table = before ++ a :: after /\
    same_code (Airport.code a) code /\
    forall x, In x before -> ~ same_code (Airport.code x) code.

(** Rounding to the nearest integer, halves away from zero. *)
Definition round_half_away (q : Q) : Z :=
  if Qle_bool 0 q then Qfloor (q + (1 # 2))%Q else - Qfloor (- q + (1 # 2))%Q.

(** A non-negative count of tenths printed with one decimal. *)
Definition tenths (n : Z) : string :=
  (NumberPrototype.digits (n / 10) ++ "." ++ NumberPrototype.digits (n mod 10))%string.

Definition meters_text (meters : Q) : string :=
  (NumberPrototype.digits (round_half_away meters) ++ " m")%string.

Definition kilometers_text (km : Q) : string :=
  (tenths (round_half_away (km * 10)%Q) ++ " km")%string.

(** The formatting rule of section 4.1 on an exact distance in meters. *)
Definition formatDistance (meters : Q) : string :=
  if Qle_bool 1000 meters then kilometers_text (meters / 1000)%Q
  else meters_text meters.

End Spec.

(** ** Example data *)

Module Examples.

(** A stand-in for [ST_DistanceSphere] in the examples: 111195 meters for
    each degree of latitude and of longitude between the points, added up. *)
Definition flat_distance (g1 g2 : GeoPoint) : number :=
  ((SFabs (latitude g1 - latitude g2) + SFabs (longitude g1 - longitude g2))
   * of_Z 111195)%js.

Definition at_KSFO : GeoPoint :=
  {| latitude := of_Z 37; longitude := of_Z (-122) |}.

Definition KSFO : Airport.t :=
  {| Airport.id := 1; Airport.code := "KSFO";
     Airport.name := "San Francisco International Airport";
     Airport.city := "San Francisco"; Airport.state := Some "CA"%string;
     Airport.country := "US"; Airport.location := at_KSFO;
     Airport.createdAt := 0; Airport.updatedAt := 0 |}.

Definition KLAX : Airport.t :=
  {| Airport.id := 2; Airport.code := "KLAX";
     Airport.name := "Los Angeles International Airport";
     Airport.city := "Los Angeles"; Airport.state := Some "CA"%string;
     Airport.country := "US";
     Airport.location := {| latitude := of_Z 34; longitude := of_Z (-118) |};
     Airport.createdAt := 0; Airport.updatedAt := 0 |}.

Definition restaurant (id : Z) (name : string) (rating : number)
    (location : GeoPoint) : Restaurant.t :=
  {| Restaurant.id := id; Restaurant.googlePlaceId := None;
     Restaurant.name := name; Restaurant.description := None;
     Restaurant.cuisine := None; Restaurant.rating := rating;
     Restaurant.address := "1 Airport Rd"; Restaurant.city := "San Francisco";
     Restaurant.state := Some "CA"%string; Restaurant.country := "US";
     Restaurant.location := location;
     Restaurant.createdAt := 0; Restaurant.updatedAt := 0 |}.

(** Rated 4.5, at the airport. *)
Definition flying_burger : Restaurant.t :=
  restaurant 1 "The Flying Burger" (dyadic 9 (-1)) at_KSFO.

(** Rated 4, one degree of longitude away. *)
Definition runway_diner : Restaurant.t :=
  restaurant 2 "Runway Diner" (of_Z 4)
             {| latitude := of_Z 37; longitude := of_Z (-121) |}.

(** Rated 3, at the airport. *)
Definition gate_cafe : Restaurant.t :=
  restaurant 3 "Gate Cafe" (of_Z 3) at_KSFO.

Definition db : PrismaClient :=
  {| restaurants := [runway_diner; gate_cafe; flying_burger];
     airports := [KLAX; KSFO] |}.

(** Two antipodal points. *)
Definition north_12 : GeoPoint :=
  {| latitude := of_Z 12; longitude := of_Z 0 |}.

Definition south_12 : GeoPoint :=
  {| latitude := of_Z (-12); longitude := of_Z 180 |}.

(** The arguments [Math.sin] and [Math.cos] receive on the way from
    [north_12] to [south_12], up to sign, and the binary64 numbers nearest
    to their exact sine and cosine:
    12 degrees = 0.20943951023931953 rad, sin = 0.20791169081775931,
    cos = 0.9781476007338057; pi/2 = 1.5707963267948966, sin = 1. *)
Definition twelve_degrees : number := S754_finite false 7545853602163669 (-55).
Definition sin_twelve_degrees : number := S754_finite false 7490808106342645 (-55).
Definition cos_twelve_degrees : number := S754_finite false 8810370340356224 (-53).
Definition half_pi : number := S754_finite false 7074237752028440 (-52).

(** A [MathObject] for the examples. On a positive argument the sine is
    read from the table above, and is the argument itself elsewhere; the sine
    of a negative argument is the opposite of that of its magnitude; the
    cosine is read from the table and is 1 elsewhere; [atan2 y x] is the
    quotient [y / x]; NaN and the infinities are treated as ECMAScript
    says. *)
Definition tabulated_sin (x : number) : number :=
  if SFeqb x twelve_degrees then sin_twelve_degrees
  else if SFeqb x half_pi then of_Z 1
  else x.

Definition example_sin (x : number) : number :=
  match x with
  | S754_nan | S754_infinity _ => NaN
  | S754_zero _ => x
  | S754_finite s _ _ =>
      if s then neg (tabulated_sin (SFabs x)) else tabulated_sin x
  end.

Definition example_cos (x : number) : number :=
  match x with
  | S754_nan | S754_infinity _ => NaN
  | _ => if SFeqb (SFabs x) twelve_degrees then cos_twelve_degrees else of_Z 1
  end.

Definition example_atan2 (y x : number) : number :=
  if isNaN y || isNaN x then NaN else (y / x)%js.

Definition Math : JsMath.MathObject :=
  {| JsMath.sin := example_sin;
     JsMath.cos := example_cos;
     JsMath.atan2 := example_atan2 |}.

End Examples.

(** Stand-ins for the examples about the route handlers and about the sign
    of the distance. *)
Module RouteExamples.

Definition is_digit (c : ascii) : bool :=
  let n := nat_of_ascii c in ((48 <=? n) && (n <=? 57))%nat.

(** The decimal digits [s] starts with: their value after [acc], their
    number after [count], and what follows them. *)
Fixpoint leading_digits (s : string) (acc : Z) (count : nat)
  : Z * nat * string :=
  match s with
  | EmptyString => (acc, count, s)
  | String c s' =>
      if is_digit c
      then leading_digits s' (10 * acc + Z.of_nat (nat_of_ascii c - 48)) (S count)
      else (acc, count, s)
  end.

Definition unsigned_decimal (s : string) : number :=
  let '(i, ni, rest) := leading_digits s 0 0 in
  match rest with
  | String "."%char rest' =>
      let '(f, nf, _) := leading_digits rest' 0 0 in
      if (ni + nf =? 0)%nat then NaN
      else (of_Z (i * 10 ^ Z.of_nat nf + f) / of_Z (10 ^ Z.of_nat nf))%js
  | _ => if (ni =? 0)%nat then NaN else of_Z i
  end.

(** Reads [-12.5], [.5], [37] and the like as [parseFloat] does (short
    decimal numerals without exponent, which it converts exactly); other
    strings are NaN. *)
Definition example_parseFloat (s : string) : number :=
  match s with
  | String "-"%char s' => neg (unsigned_decimal s')
  | _ => unsigned_decimal s
  end.

(** Reads the digits a string starts with, after a minus sign if there is
    one, in base ten. *)
Definition example_parseInt (s : string) (radix : Z) : number :=
  let unsigned (s : string) :=
    let '(i, ni, _) := leading_digits s 0 0 in
    if (ni =? 0)%nat then NaN else of_Z i in
  match s with
  | String "-"%char s' => neg (unsigned s')
  | _ => unsigned s
  end.

Definition global : GlobalObject :=
  {| parseFloat := example_parseFloat; parseInt := example_parseInt |}.

(** A driver that refuses a limit that is not an integer. *)
Definition refuse {A : Type} : result (list A) :=
  Err (QueryError "invalid input for LIMIT").

(** A second [MathObject]: that of [Examples], with the magnitude of [x] in
    the quotient that stands for [atan2 y x]. *)
Definition example_atan2 (y x : number) : number :=
  if isNaN y || isNaN x then NaN else (y / SFabs x)%js.

Definition Math : JsMath.MathObject :=
  {| JsMath.sin := Examples.example_sin;
     JsMath.cos := Examples.example_cos;
     JsMath.atan2 := example_atan2 |}.

End RouteExamples.

(** * Properties *)

(** ** The order of float8 values *)

Module PgFacts.

Import Pg.

Lemma float8_le_rank x y : float8_le x y = true <-> lex_le (rank x) (rank y).
Proof.
  destruct x as [[]|[]| |[] m e], y as [[]|[]| |[] m' e'];
    cbn; try (split; [intros _; lia | reflexivity]);
    try (split; [discriminate | lia]);
    unfold SFleb, SFcompare; rewrite ?Pos.compare_cont_spec; cbn;
    destruct (Z.compare_spec e e'), (Pos.compare_spec m m'); cbn;
    split; try discriminate; try reflexivity; try lia.
Qed.

Lemma float8_le_total x y : float8_le x y = true \/ float8_le y x = true.
Proof.
  rewrite !float8_le_rank.
  destruct (rank x) as [[a b] c], (rank y) as [[a' b'] c']; cbn; lia.
Qed.

Lemma float8_le_trans x y z :
  float8_le x y = true -> float8_le y z = true -> float8_le x z = true.
Proof.
  rewrite !float8_le_rank.
  destruct (rank x) as [[a b] c], (rank y) as [[a' b'] c'],
           (rank z) as [[a'' b''] c'']; cbn; lia.
Qed.

(** Below a bound that is not NaN the float8 order is the JavaScript one. *)
Lemma float8_le_leb x y :
  isNaN y = false -> float8_le x y = true -> (x <= y)%js = true.
Proof.
  destruct x, y; cbn; intros; congruence.
Qed.

Lemma float8_le_not_NaN x y :
  isNaN y = false -> float8_le x y = true -> isNaN x = false.
Proof.
  destruct x, y; cbn; intros; congruence.
Qed.

Lemma filter_none {A} (f : A -> bool) rows :
  (forall x, In x rows -> f x = false) -> filter f rows = [].
Proof.
  induction rows as [|y rows IH]; cbn; [reflexivity|]. intros H.
  rewrite (H y) by now left. apply IH. intros x Hx. apply H. now right.
Qed.

Lemma filter_first {A} (f : A -> bool) before a after :
  f a = true -> (forall x, In x before -> f x = false) ->
  filter f (before ++ a :: after) = a :: filter f after.
Proof.
  intros Ha Hb. rewrite filter_app, (filter_none f before Hb). cbn.
  now rewrite Ha.
Qed.

Lemma first_match {A} (f : A -> bool) rows a :
  In a rows -> f a = true ->
  exists before a0 after,
    rows = before ++ a0 :: after /\ f a0 = true /\
    forall x, In x before -> f x = false.
Proof.
  induction rows as [|y rows IH]; [easy|]. intros Ha Hf.
  destruct (f y) eqn:Hy.
  - exists [], y, rows. now repeat split.
  - destruct Ha as [->|Ha]; [congruence|].
    destruct (IH Ha Hf) as (before & a0 & after & -> & Ha0 & Hb).
    exists (y :: before), a0, after. repeat split; try assumption.
    intros x [<-|Hx]; auto.
Qed.

Lemma float8_le_is_leb x y : isNaN y = false -> float8_le x y = (x <= y)%js.
Proof.
  destruct x, y; cbn; intros; congruence.
Qed.

Lemma firstn_In {A} (x : A) n rows : In x (firstn n rows) -> In x rows.
Proof.
  revert n. induction rows as [|y rows IH]; intros [|n]; cbn; try tauto.
  intros [->|H]; [now left|right; eauto].
Qed.

Section OrderBy.
Context {A : Type} (key : A -> number).

Let before (a b : A) : Prop := float8_le (key a) (key b) = true.

Lemma insert_Permutation x rows : Permutation (insert key x rows) (x :: rows).
Proof.
  induction rows as [|y rows IH]; cbn; [reflexivity|].
  destruct (float8_le (key x) (key y)); [reflexivity|].
  rewrite IH. apply perm_swap.
Qed.

Lemma order_by_asc_Permutation rows : Permutation (order_by_asc key rows) rows.
Proof.
  induction rows as [|x rows IH]; cbn; [reflexivity|].
  rewrite insert_Permutation. now constructor.
Qed.

Lemma insert_StronglySorted x rows :
  StronglySorted before rows -> StronglySorted before (insert key x rows).
Proof.
  induction 1 as [|y rows Hs IH Hy]; cbn.
  - repeat constructor.
  - destruct (float8_le (key x) (key y)) eqn:Hxy.
    + constructor; [now constructor|].
      constructor; [exact Hxy|].
      eapply Forall_impl; [|exact Hy].
      intros z Hz. unfold before in *. eapply float8_le_trans; eassumption.
    + constructor; [exact IH|].
      rewrite (Forall_forall (before y)). intros z Hz.
      apply (Permutation_in _ (insert_Permutation x rows)) in Hz.
      destruct Hz as [<-|Hz].
      * destruct (float8_le_total (key x) (key y)); [congruence|assumption].
      * rewrite Forall_forall in Hy. now apply Hy.
Qed.

Lemma order_by_asc_StronglySorted rows :
  StronglySorted before (order_by_asc key rows).
Proof.
  induction rows; cbn; [constructor|now apply insert_StronglySorted].
Qed.

Lemma firstn_StronglySorted n rows :
  StronglySorted before rows -> StronglySorted before (firstn n rows).
Proof.
  intros Hs. revert n.
  induction Hs as [|y rows Hs IH Hy]; intros [|n]; cbn; try constructor.
  - apply IH.
  - rewrite Forall_forall in *. intros z Hz. apply Hy.
    eapply firstn_In, Hz.
Qed.
End OrderBy.

Lemma limit_Ok {A} n (rows : list A) :
  0 <= n < 2 ^ 63 -> limit n rows = Ok (firstn (Z.to_nat n) rows).
Proof.
  intros Hn. unfold limit. destruct (Z.ltb_spec n 0); [lia|].
  destruct (Z.leb_spec (2 ^ 63) n); [lia|reflexivity].
Qed.

Lemma limit_Err {A} n (rows : list A) :
  n < 0 \/ 2 ^ 63 <= n -> exists message, limit n rows = Err (QueryError message).
Proof.
  intros Hn. unfold limit. destruct (Z.ltb_spec n 0); [eauto|].
  destruct (Z.leb_spec (2 ^ 63) n); [eauto|lia].
Qed.

Lemma limit_inv {A} n (rows results : list A) :
  limit n rows = Ok results ->
  0 <= n < 2 ^ 63 /\ results = firstn (Z.to_nat n) rows.
Proof.
  unfold limit. destruct (Z.ltb_spec n 0); [discriminate|].
  destruct (Z.leb_spec (2 ^ 63) n); [discriminate|].
  intros [= <-]. split; [lia|reflexivity].
Qed.

Lemma firstn_length_Z {A} n (rows : list A) :
  0 <= n -> Z.of_nat (List.length (firstn (Z.to_nat n) rows)) <= n.
Proof.
  intros Hn. rewrite length_firstn. lia.
Qed.

End PgFacts.

(** ** Facts about binary64 arithmetic *)

Module F64Facts.

Lemma iter_pos_invariant {A : Type} (P : A -> Prop) (f : A -> A) :
  (forall x, P x -> P (f x)) -> forall p x, P x -> P (iter_pos f p x).
Proof.
  intros Hf. induction p; cbn; auto.
Qed.

Lemma shr_1_nonneg mrs : 0 <= shr_m mrs -> 0 <= shr_m (shr_1 mrs).
Proof.
  destruct mrs as [[|[p|p|]|p] r s]; cbn; lia.
Qed.

Lemma shr_record_of_loc_m m l : shr_m (shr_record_of_loc m l) = m.
Proof.
  destruct l as [|[]]; reflexivity.
Qed.

Lemma shr_nonneg mrs e n : 0 <= shr_m mrs -> 0 <= shr_m (fst (shr mrs e n)).
Proof.
  intros H. destruct n; cbn; auto.
  now apply (iter_pos_invariant (fun x => 0 <= shr_m x) shr_1 shr_1_nonneg).
Qed.

Lemma shr_fexp_nonneg m e l :
  0 <= m -> 0 <= shr_m (fst (shr_fexp prec emax m e l)).
Proof.
  intros H. unfold shr_fexp. apply shr_nonneg.
  now rewrite shr_record_of_loc_m.
Qed.

Lemma round_nearest_even_nonneg m l : 0 <= m -> 0 <= round_nearest_even m l.
Proof.
  destruct l as [|[]]; cbn; try lia. destruct (Z.even m); lia.
Qed.

(** Rounding a non-negative mantissa gives a zero, a finite value or an
    infinity of the requested sign, never NaN. *)
Lemma binary_round_aux_cases s m e l :
  0 <= m ->
  binary_round_aux prec emax s m e l = S754_zero s \/
  binary_round_aux prec emax s m e l = S754_infinity s \/
  exists m' e', binary_round_aux prec emax s m e l = S754_finite s m' e'.
Proof.
  intros H. unfold binary_round_aux.
  pose proof (shr_fexp_nonneg m e l H) as H1.
  destruct (shr_fexp prec emax m e l) as [mrs' e']. cbn [fst] in H1.
  pose proof (shr_fexp_nonneg _ e' loc_Exact
                (round_nearest_even_nonneg _ (loc_of_shr_record mrs') H1)) as H2.
  destruct (shr_fexp prec emax _ e' loc_Exact) as [mrs'' e'']. cbn [fst] in H2.
  destruct (shr_m mrs'') as [|p|p]; [now left| |lia].
  destruct (e'' <=? emax - prec); eauto.
Qed.

(** The sign given to the rounding is the sign of its result. *)
Lemma binary_round_aux_negb s m e l :
  binary_round_aux prec emax (negb s) m e l =
  SFopp (binary_round_aux prec emax s m e l).
Proof.
  unfold binary_round_aux.
  destruct (shr_fexp prec emax m e l) as [mrs' e'].
  destruct (shr_fexp prec emax _ e' loc_Exact) as [mrs'' e''].
  destruct (shr_m mrs''); [reflexivity| |reflexivity].
  destruct (e'' <=? emax - prec); reflexivity.
Qed.

Lemma neg_involutive x : neg (neg x) = x.
Proof.
  destruct x; cbn; rewrite ?negb_involutive; reflexivity.
Qed.

Lemma mul_neg_l x y : (neg x * y)%js = neg (x * y)%js.
Proof.
  destruct x as [s|s| |s m e], y as [s'|s'| |s' m' e']; cbn;
    rewrite <- ?negb_xorb_l; try reflexivity.
  apply binary_round_aux_negb.
Qed.

Lemma mul_comm x y : (x * y)%js = (y * x)%js.
Proof.
  destruct x as [s|s| |s m e], y as [s'|s'| |s' m' e']; cbn;
    rewrite ?(xorb_comm s s'); try reflexivity.
  now rewrite Pos.mul_comm, Z.add_comm.
Qed.

Lemma mul_neg_r x y : (x * neg y)%js = neg (x * y)%js.
Proof.
  now rewrite mul_comm, mul_neg_l, mul_comm.
Qed.

Lemma mul_neg_neg x : (neg x * neg x)%js = (x * x)%js.
Proof.
  now rewrite mul_neg_l, mul_neg_r, neg_involutive.
Qed.

Lemma div_neg_l x y : (neg x / y)%js = neg (x / y)%js.
Proof.
  destruct x as [s|s| |s m e], y as [s'|s'| |s' m' e']; cbn;
    rewrite <- ?negb_xorb_l; try reflexivity.
  destruct (SFdiv_core_binary prec emax (Z.pos m) e (Z.pos m') e') as [[mz ez] lz].
  apply binary_round_aux_negb.
Qed.

Lemma binary_normalize_opp z e :
  z <> 0 ->
  binary_normalize prec emax (- z) e false =
  SFopp (binary_normalize prec emax z e false).
Proof.
  destruct z as [|p|p]; [congruence| |]; intros _; cbn; unfold binary_round;
    destruct (shl_align p e _) as [mz ez].
  - apply (binary_round_aux_negb false).
  - rewrite <- (binary_round_aux_negb true). reflexivity.
Qed.

(** Subtraction is antisymmetric, except that a zero difference is +0
    both ways. *)
Lemma sub_antisym x y :
  (x - y)%js = neg (y - x)%js \/ ((x - y)%js = zero /\ (y - x)%js = zero).
Proof.
  destruct x as [[]|[]| |s m e], y as [[]|[]| |s' m' e']; cbn;
    rewrite ?negb_involutive; auto.
  rewrite (Z.min_comm e' e).
  set (a := cond_Zopp s _). set (b := cond_Zopp s' _).
  destruct (Z.eq_dec (a - b) 0) as [E|E].
  - right. replace (b - a) with 0 by lia. rewrite E. now split.
  - left. replace (a - b) with (- (b - a)) by lia.
    apply binary_normalize_opp. lia.
Qed.

Lemma sub_diag x : isFinite x = true -> (x - x)%js = zero.
Proof.
  destruct x as [[]|[]| |s m e]; cbn; try discriminate; try reflexivity.
  intros _. now rewrite Z.sub_diag.
Qed.

(** A product with a finite factor is NaN only if the other factor is. *)
Lemma mul_finite_not_NaN x s m e :
  isNaN x = false -> isNaN (x * S754_finite s m e)%js = false.
Proof.
  destruct x as [sx|sx| |sx mx ex]; cbn; try reflexivity; try discriminate.
  intros _.
  destruct (binary_round_aux_cases (xorb sx s) (Z.pos (mx * m)) (ex + e) loc_Exact)
    as [-> |[-> |(m' & e' & ->)]]; [lia|reflexivity..].
Qed.


(** *** Size of mantissas *)

(** [SpecFloat] states its arithmetic with the kernel's own integer
    operations; [lia] reads the standard ones. *)
Ltac std_Z :=
  change IntDef.Z.max with Z.max in *;
  change IntDef.Z.min with Z.min in *;
  change IntDef.Z.sub with Z.sub in *;
  change IntDef.Z.add with Z.add in *;
  change IntDef.Z.opp with Z.opp in *.

Lemma digits2_pos_size p : digits2_pos p = Pos.size p.
Proof.
  induction p; cbn; congruence.
Qed.

Lemma Zdigits2_log2 m : 0 < m -> Zdigits2 m = Z.log2 m + 1.
Proof.
  destruct m as [|p|p]; try lia. intros _. cbn [Zdigits2].
  rewrite digits2_pos_size. destruct p; cbn; lia.
Qed.

Lemma Zdigits2_nonneg m : 0 <= Zdigits2 m.
Proof.
  destruct m; cbn; lia.
Qed.

Lemma Zdigits2_mono a b : 0 <= a <= b -> Zdigits2 a <= Zdigits2 b.
Proof.
  intros [Ha Hab]. destruct (Z.eq_dec a 0) as [->|Hz].
  - apply Zdigits2_nonneg.
  - rewrite !Zdigits2_log2 by lia. pose proof (Z.log2_le_mono a b Hab). lia.
Qed.

Lemma Zdigits2_succ m : 0 <= m -> Zdigits2 (m + 1) <= Zdigits2 m + 1.
Proof.
  intros Hm. destruct (Z.eq_dec m 0) as [->|Hz]; [cbn; lia|].
  rewrite !Zdigits2_log2 by lia. pose proof (Z.log2_succ_le m) as H.
  rewrite <- Z.add_1_r in H. lia.
Qed.

Lemma Zdigits2_mul a b :
  0 < a -> 0 < b -> Zdigits2 (a * b) <= Zdigits2 a + Zdigits2 b.
Proof.
  intros Ha Hb. rewrite !Zdigits2_log2 by lia.
  pose proof (Z.log2_mul_above a b). lia.
Qed.

Lemma Zdigits2_shiftl m n :
  0 < m -> 0 <= n -> Zdigits2 (Z.shiftl m n) = Zdigits2 m + n.
Proof.
  intros Hm Hn.
  assert (0 < Z.shiftl m n)
    by (rewrite Z.shiftl_mul_pow2 by lia; apply Z.mul_pos_pos; [lia|now apply Z.pow_pos_nonneg]).
  rewrite !Zdigits2_log2 by lia. rewrite Z.log2_shiftl by lia. lia.
Qed.

Lemma shr_1_digits mrs :
  Zdigits2 (shr_m (shr_1 mrs)) = Z.max 0 (Zdigits2 (shr_m mrs) - 1).
Proof.
  destruct mrs as [[|[p|p|]|[p|p|]] r s];
    cbn [shr_1 shr_m Zdigits2 digits2_pos]; rewrite ?Pos2Z.inj_succ; lia.
Qed.

Lemma iter_shr_1_digits p mrs :
  Zdigits2 (shr_m (iter_pos shr_1 p mrs))
  = Z.max 0 (Zdigits2 (shr_m mrs) - Zpos p).
Proof.
  revert mrs. induction p as [p IH|p IH|]; intros mrs; cbn [iter_pos].
  - rewrite !IH, shr_1_digits. lia.
  - rewrite !IH. lia.
  - apply shr_1_digits.
Qed.

(** The exponent [shr_fexp] settles on, and the size of the mantissa it
    leaves. *)
Lemma shr_fexp_spec m e l :
  snd (shr_fexp prec emax m e l) = Z.max e (fexp prec emax (Zdigits2 m + e)) /\
  Zdigits2 (shr_m (fst (shr_fexp prec emax m e l)))
  = Z.max 0 (Zdigits2 m - (snd (shr_fexp prec emax m e l) - e)).
Proof.
  unfold shr_fexp, shr.
  destruct (fexp prec emax (Zdigits2 m + e) - e) as [|n|n] eqn:E; cbn [fst snd].
  - rewrite shr_record_of_loc_m. pose proof (Zdigits2_nonneg m). lia.
  - rewrite iter_shr_1_digits, shr_record_of_loc_m. lia.
  - rewrite shr_record_of_loc_m. pose proof (Zdigits2_nonneg m). lia.
Qed.

Lemma round_nearest_even_digits m l :
  0 <= m -> Zdigits2 (round_nearest_even m l) <= Zdigits2 m + 1.
Proof.
  intros Hm. pose proof (Zdigits2_succ m Hm).
  destruct l as [|[]]; cbn; try lia. destruct (Z.even m); lia.
Qed.

(** Rounding does not overflow when the exponent and the magnitude leave
    room, and the result stays within one binary digit of its argument. *)
Lemma binary_round_aux_bounded s m e l E D :
  0 <= m -> e <= E -> Zdigits2 m + e <= D ->
  -1074 <= E -> E <= 971 -> D <= 1023 ->
  (binary_round_aux prec emax s m e l = S754_zero s \/
   exists m' e', binary_round_aux prec emax s m e l = S754_finite s m' e') /\
  bounded_by (Z.max E (D - 52)) (Z.max E D + 1) (binary_round_aux prec emax s m e l).
Proof.
  intros Hm He Hd HE HE' HD. unfold binary_round_aux.
  pose proof (shr_fexp_spec m e l) as [He1 Hd1].
  pose proof (shr_fexp_nonneg m e l Hm) as Hn1.
  destruct (shr_fexp prec emax m e l) as [mrs1 e1]. cbn [fst snd] in *.
  set (m2 := round_nearest_even (shr_m mrs1) (loc_of_shr_record mrs1)).
  pose proof (round_nearest_even_digits _ (loc_of_shr_record mrs1) Hn1) as Hd2.
  pose proof (round_nearest_even_nonneg _ (loc_of_shr_record mrs1) Hn1) as Hn2.
  fold m2 in Hd2, Hn2. clearbody m2.
  pose proof (shr_fexp_spec m2 e1 loc_Exact) as [He3 Hd3].
  pose proof (shr_fexp_nonneg m2 e1 loc_Exact Hn2) as Hn3.
  destruct (shr_fexp prec emax m2 e1 loc_Exact) as [mrs3 e3]. cbn [fst snd] in *.
  unfold fexp, SpecFloat.emin, prec, emax in *.
  std_Z. pose proof (Zdigits2_nonneg m).
  destruct (shr_m mrs3) as [|m3|m3] eqn:E3; [cbn; auto| |lia].
  cbn [Zdigits2] in Hd3.
  assert (e3 <= 971) as Hfin by lia.
  apply Z.leb_le in Hfin. replace (1024 - 53) with 971 by reflexivity.
  rewrite Hfin. split; [eauto|]. unfold bounded_by. lia.
Qed.

Lemma valid_digits s m e :
  well_formed (S754_finite s m e) -> Zpos (digits2_pos m) <= 53.
Proof.
  unfold well_formed, valid_binary, bounded, canonical_mantissa.
  intros H. apply andb_true_iff in H as [H _]. apply Z.eqb_eq in H.
  unfold fexp, SpecFloat.emin, prec, emax in H. std_Z. lia.
Qed.

(** A well-formed number between [- M * 2^E] and [M * 2^E] is finite, with
    exponent at most [E]. *)
Lemma between_bounded x M E :
  well_formed x ->
  (S754_finite true M E <= x)%js = true ->
  (x <= S754_finite false M E)%js = true ->
  bounded_by E (53 + E) x.
Proof.
  intros Hv Hlo Hhi.
  destruct x as [s|[]| |[] m e]; try exact I; try discriminate;
    pose proof (valid_digits _ _ _ Hv); unfold bounded_by;
    unfold leb, SFleb, SFcompare in Hlo, Hhi.
  - destruct (Z.compare_spec E e); try discriminate; lia.
  - destruct (Z.compare_spec e E); try discriminate; lia.
Qed.

Lemma bounded_by_weaken E D E' D' x :
  bounded_by E D x -> E <= E' -> D <= D' -> bounded_by E' D' x.
Proof.
  destruct x; unfold bounded_by; try easy. lia.
Qed.

Lemma bounded_by_finite E D x : bounded_by E D x -> isFinite x = true.
Proof.
  now destruct x.
Qed.

Lemma mul_bounded E1 D1 E2 D2 x y :
  bounded_by E1 D1 x -> bounded_by E2 D2 y ->
  -1074 <= E1 + E2 -> E1 + E2 <= 971 -> D1 + D2 <= 1023 ->
  bounded_by (Z.max (E1 + E2) (D1 + D2 - 52)) (Z.max (E1 + E2) (D1 + D2) + 1)
             (x * y)%js.
Proof.
  destruct x as [sx| | |sx mx ex], y as [sy| | |sy my ey];
    unfold mul; cbn [SFmul bounded_by]; try easy.
  intros [Hex Hdx] [Hey Hdy] HE HE' HD.
  apply binary_round_aux_bounded; try lia.
  pose proof (Zdigits2_mul (Zpos mx) (Zpos my)). cbn [Zdigits2 Z.mul] in *. lia.
Qed.

(** The square of a finite number that does not overflow is a finite number
    of positive sign. *)
Lemma mul_self_positive E D x :
  bounded_by E D x -> -1074 <= E + E -> E + E <= 971 -> D + D <= 1023 ->
  (x * x)%js = zero \/ exists m e, (x * x)%js = S754_finite false m e.
Proof.
  destruct x as [sx| | |sx mx ex]; unfold mul; cbn [SFmul bounded_by]; try easy.
  - intros _ _ _ _. left. now destruct sx.
  - intros [Hex Hdx] HE HE' HD. rewrite xorb_nilpotent.
    apply (binary_round_aux_bounded false _ _ loc_Exact (E + E) (D + D)); try lia.
    pose proof (Zdigits2_mul (Zpos mx) (Zpos mx)). cbn [Zdigits2 Z.mul] in *. lia.
Qed.

Lemma div_bounded E D x sy my ey :
  bounded_by E D x ->
  -1074 <= E - ey -> E - ey <= 971 -> D - ey <= 1023 ->
  isFinite (x / S754_finite sy my ey)%js = true.
Proof.
  destruct x as [sx| | |sx mx ex]; unfold div; cbn [SFdiv bounded_by]; try easy.
  intros [Hex Hdx] HE HE' HD.
  unfold SFdiv_core_binary. cbn [Zdigits2].
  std_Z. set (e' := Z.min _ _). set (sh := ex - ey - e').
  assert (e' <= ex - ey) as He' by (unfold e'; lia).
  assert (0 <= sh) as Hsh by (unfold sh; lia).
  set (m' := match sh with Z.pos _ => Z.shiftl (Z.pos mx) sh | 0 => Z.pos mx | Z.neg _ => 0 end).
  assert (0 < m' /\ Zdigits2 m' = Zpos (digits2_pos mx) + sh) as [Hm' Hdm'].
  { unfold m'. destruct sh as [|n|n] eqn:Esh; [cbn; lia| |lia]. split.
    - rewrite Z.shiftl_mul_pow2 by lia. apply Z.mul_pos_pos; [lia|].
      now apply Z.pow_pos_nonneg.
    - now rewrite Zdigits2_shiftl by lia. }
  pose proof (Z_div_mod m' (Zpos my) ltac:(lia)) as Hdiv.
  destruct (Z.div_eucl m' (Zpos my)) as [q r]. destruct Hdiv as [Hq Hr].
  assert (0 <= q <= m') as Hqb by nia.
  pose proof (Zdigits2_mono q m' Hqb) as Hdq.
  destruct (binary_round_aux_bounded (xorb sx sy) q e' (new_location (Zpos my) r)
              (E - ey) (D - ey)) as [[-> |(m1 & e1 & ->)] _];
    try lia; reflexivity.
Qed.

Lemma digits_bounds p :
  2 ^ (Zpos (digits2_pos p) - 1) <= Zpos p < 2 ^ Zpos (digits2_pos p).
Proof.
  pose proof (Zdigits2_log2 (Zpos p) ltac:(lia)) as H. cbn [Zdigits2] in H.
  rewrite H. replace (Z.log2 (Zpos p) + 1 - 1) with (Z.log2 (Zpos p)) by lia.
  apply Z.log2_spec. lia.
Qed.

Lemma Zdigits2_below q K : 0 <= q -> 0 <= K -> q < 2 ^ K -> Zdigits2 q <= K.
Proof.
  intros Hq HK Hlt. destruct (Z.eq_dec q 0) as [->|Hz]; [cbn; lia|].
  rewrite Zdigits2_log2 by lia.
  pose proof (proj1 (Z.log2_lt_pow2 q K ltac:(lia)) Hlt). lia.
Qed.

(** A quotient is finite when the magnitudes of its terms are less than 1022
    binary orders apart. *)
Lemma div_finite sx mx ex sy my ey :
  Zpos (digits2_pos mx) + ex - (Zpos (digits2_pos my) + ey) <= 1022 ->
  isFinite (S754_finite sx mx ex / S754_finite sy my ey)%js = true.
Proof.
  intros Hmag. unfold div. cbn [SFdiv].
  unfold SFdiv_core_binary. cbn [Zdigits2]. std_Z.
  set (dx := Zpos (digits2_pos mx)) in *. set (dy := Zpos (digits2_pos my)) in *.
  set (E := fexp prec emax (dx + ex - (dy + ey))).
  assert (-1074 <= E <= 971) as HE
    by (unfold E, fexp, SpecFloat.emin, prec, emax; std_Z; lia).
  set (e' := Z.min E (ex - ey)). set (sh := ex - ey - e').
  assert (0 <= sh) as Hsh by (unfold sh, e'; lia).
  set (m' := match sh with Z.pos _ => Z.shiftl (Z.pos mx) sh | 0 => Z.pos mx | Z.neg _ => 0 end).
  assert (m' = Zpos mx * 2 ^ sh) as Hm'.
  { unfold m'. destruct sh as [|n|n] eqn:Esh; [lia| |lia].
    now rewrite Z.shiftl_mul_pow2 by lia. }
  clearbody m'.
  pose proof (digits_bounds mx) as [_ Hmx]. pose proof (digits_bounds my) as [Hmy _].
  fold dx in Hmx. fold dy in Hmy.
  assert (0 < 2 ^ sh) by (apply Z.pow_pos_nonneg; lia).
  assert (0 < 2 ^ (dy - 1)) by (apply Z.pow_pos_nonneg; lia).
  pose proof (Z_div_mod m' (Zpos my) ltac:(lia)) as Hdiv.
  destruct (Z.div_eucl m' (Zpos my)) as [q r]. destruct Hdiv as [Hq Hr].
  assert (0 <= q) as Hq0 by nia.
  assert (Zdigits2 q + e' <= Z.max E (dx + ex - (dy + ey) + 1)) as Hdq.
  { destruct (Z.eq_dec q 0) as [->|Hz]; [cbn [Zdigits2]; unfold e'; lia|].
    assert (q * 2 ^ (dy - 1) < 2 ^ dx * 2 ^ sh) as Hlt by nia.
    assert (dy - 1 < dx + sh) as Hk.
    { apply (Z.pow_lt_mono_r_iff 2); [lia|lia|].
      rewrite Z.pow_add_r by lia. nia. }
    assert (q < 2 ^ (dx + sh - dy + 1)) as Hq2.
    { apply (Z.mul_lt_mono_pos_r (2 ^ (dy - 1))); [assumption|].
      rewrite <- Z.pow_add_r by lia.
      replace (dx + sh - dy + 1 + (dy - 1)) with (dx + sh) by lia.
      now rewrite Z.pow_add_r by lia. }
    pose proof (Zdigits2_below q (dx + sh - dy + 1) Hq0 ltac:(lia) Hq2).
    unfold sh in *. lia. }
  destruct (binary_round_aux_bounded (xorb sx sy) q e' (new_location (Zpos my) r)
              E (Z.max E (dx + ex - (dy + ey) + 1)))
    as [[-> |(m1 & e1 & ->)] _]; try reflexivity; unfold e'; lia.
Qed.

End F64Facts.


(** ** The raw queries *)

Module QueryFacts.

Import Pg PgFacts.

Lemma ST_MakePoint_eta p : ST_MakePoint (longitude p) (latitude p) = p.
Proof.
  now destruct p.
Qed.

Lemma StronglySorted_weaken {A} (P : A -> Prop) (R R' : A -> A -> Prop) rows :
  (forall a b, P a -> P b -> R a b -> R' a b) ->
  Forall P rows -> StronglySorted R rows -> StronglySorted R' rows.
Proof.
  intros HR HP Hs. induction Hs as [|x rows Hs IH Hx]; constructor.
  - apply IH. now inversion HP.
  - inversion HP as [|? ? Px Prows]; subst.
    rewrite Forall_forall in *. intros y Hy. apply HR; auto.
Qed.

Section Pipeline.
Context {A B : Type} (key : B -> number) (select : A -> B) (where_ : A -> bool).

Let selected (rows : list A) : list B :=
  order_by_asc key (map select (filter where_ rows)).

Lemma selected_In rows x :
  In x (selected rows) <-> exists a, In a rows /\ where_ a = true /\ x = select a.
Proof.
  unfold selected. split.
  - intros H. apply (Permutation_in _ (order_by_asc_Permutation key _)) in H.
    apply in_map_iff in H as (a & <- & Ha). apply filter_In in Ha as [Ha Hw].
    now exists a.
  - intros (a & Ha & Hw & ->).
    apply (Permutation_in _ (Permutation_sym (order_by_asc_Permutation key _))).
    apply in_map, filter_In. now split.
Qed.

Lemma query_Ok n rows :
  0 <= n < 2 ^ 63 ->
  limit n (selected rows) = Ok (firstn (Z.to_nat n) (selected rows)).
Proof.
  apply limit_Ok.
Qed.

Lemma query_inv n rows results :
  limit n (selected rows) = Ok results ->
  0 <= n < 2 ^ 63 /\ Z.of_nat (List.length results) <= n /\
  StronglySorted (fun a b => float8_le (key a) (key b) = true) results /\
  Forall (fun x => exists a, In a rows /\ where_ a = true /\ x = select a) results.
Proof.
  intros H. apply limit_inv in H as [Hn ->]. split; [exact Hn|].
  split; [apply firstn_length_Z; lia|]. split.
  - apply firstn_StronglySorted, order_by_asc_StronglySorted.
  - apply Forall_forall. intros x Hx. apply selected_In.
    eapply firstn_In, Hx.
Qed.

Lemma query_nil n rows :
  0 <= n < 2 ^ 63 -> (forall a, In a rows -> where_ a = false) ->
  limit n (selected rows) = Ok [].
Proof.
  intros Hn Hw. rewrite query_Ok by exact Hn.
  destruct (selected rows) as [|x l] eqn:E; [now rewrite firstn_nil|].
  assert (In x (selected rows)) as Hx by (rewrite E; now left).
  apply selected_In in Hx as (a & Ha & Hwa & _). rewrite Hw in Hwa; easy.
Qed.

(** With [LIMIT 1] the answer is the first row in the order, which no
    selected row precedes. *)
Lemma query_first rows a :
  In a rows -> where_ a = true ->
  exists x, limit 1 (selected rows) = Ok [x] /\
    (exists a0, In a0 rows /\ where_ a0 = true /\ x = select a0) /\
    forall b, In b rows -> where_ b = true ->
              float8_le (key x) (key (select b)) = true.
Proof.
  intros Ha Hw. rewrite query_Ok by lia.
  assert (In (select a) (selected rows)) as Hin by (apply selected_In; eauto).
  pose proof (order_by_asc_StronglySorted key (map select (filter where_ rows))) as Hs.
  fold (selected rows) in Hs.
  destruct (selected rows) as [|x l] eqn:E; [easy|].
  exists x. split; [reflexivity|]. split.
  - apply selected_In. rewrite E. now left.
  - intros b Hb Hwb.
    assert (In (select b) (x :: l)) as [<-|Hl]
        by (rewrite <- E; apply selected_In; eauto).
    + destruct (float8_le_total (key x) (key x)); assumption.
    + inversion Hs as [|? ? _ Hx]; subst. rewrite Forall_forall in Hx. now apply Hx.
Qed.
End Pipeline.

Lemma of_Z_1000 : of_Z 1000 = S754_finite false 8796093022208000 (-43).
Proof.
  reflexivity.
Qed.

Lemma radiusMeters_not_NaN radiusKm :
  isNaN radiusKm = false -> isNaN (radiusKm * of_Z 1000)%js = false.
Proof.
  rewrite of_Z_1000. apply F64Facts.mul_finite_not_NaN.
Qed.

Section Queries.
Variable ST_DistanceSphere : GeoPoint -> GeoPoint -> number.

Lemma findRestaurantsNearby_Ok prisma point radiusKm minRating limit :
  0 <= default 20 limit < 2 ^ 63 ->
  exists results,
    Geospatial.findRestaurantsNearby ST_DistanceSphere prisma point
      radiusKm minRating limit = Ok results.
Proof.
  intros Hl. unfold Geospatial.findRestaurantsNearby.
  rewrite limit_Ok by exact Hl. eauto.
Qed.

Lemma findAirportsNearby_Ok prisma point radiusKm limit :
  0 <= default 20 limit < 2 ^ 63 ->
  exists results,
    Geospatial.findAirportsNearby ST_DistanceSphere prisma point radiusKm limit
    = Ok results.
Proof.
  intros Hl. unfold Geospatial.findAirportsNearby.
  rewrite limit_Ok by exact Hl. eauto.
Qed.

Lemma findRestaurantsNearby_inv prisma point radiusKm minRating limit results :
  Geospatial.findRestaurantsNearby ST_DistanceSphere prisma point
    radiusKm minRating limit = Ok results ->
  Z.of_nat (List.length results) <= default 20 limit /\
  StronglySorted
    (fun a b => float8_le (RestaurantWithDistance.distance a)
                          (RestaurantWithDistance.distance b) = true) results /\
  Forall
    (fun x =>
       float8_le (RestaurantWithDistance.distance x)
                 (default (of_Z 5) radiusKm * of_Z 1000)%js = true /\
       float8_ge (RestaurantWithDistance.rating x)
                 (default (of_Z 4) minRating) = true /\
       exists r, In r (restaurants prisma) /\
         RestaurantWithDistance.id x = Restaurant.id r /\
         RestaurantWithDistance.distance x =
           ST_DistanceSphere (Restaurant.location r) point) results.
Proof.
  unfold Geospatial.findRestaurantsNearby. rewrite ST_MakePoint_eta.
  intros H. apply query_inv in H as (_ & Hlen & Hs & Hall).
  split; [exact Hlen|]. split; [exact Hs|].
  eapply Forall_impl; [|exact Hall]. cbn beta.
  intros x (r & Hr & Hw & ->). apply andb_true_iff in Hw as [Hrat Hd]. cbn.
  repeat split; try assumption. now exists r.
Qed.

Lemma findAirportsNearby_inv prisma point radiusKm limit results :
  Geospatial.findAirportsNearby ST_DistanceSphere prisma point radiusKm limit
  = Ok results ->
  Z.of_nat (List.length results) <= default 20 limit /\
  StronglySorted
    (fun a b => float8_le (AirportWithDistance.distance a)
                          (AirportWithDistance.distance b) = true) results /\
  Forall
    (fun x =>
       float8_le (AirportWithDistance.distance x)
                 (default (of_Z 50) radiusKm * of_Z 1000)%js = true /\
       exists a, In a (airports prisma) /\
         AirportWithDistance.code x = Airport.code a /\
         AirportWithDistance.distance x =
           ST_DistanceSphere (Airport.location a) point) results.
Proof.
  unfold Geospatial.findAirportsNearby. rewrite ST_MakePoint_eta.
  intros H. apply query_inv in H as (_ & Hlen & Hs & Hall).
  split; [exact Hlen|]. split; [exact Hs|].
  eapply Forall_impl; [|exact Hall]. cbn beta.
  intros x (a & Ha & Hw & ->). cbn. split; [exact Hw|]. now exists a.
Qed.
End Queries.

End QueryFacts.

(** ** Airport codes *)

Module CodeFacts.

Import Pg Spec.

Lemma lower_upper_char c : lower_char (upper_char c) = lower_char c.
Proof.
  destruct c as [[] [] [] [] [] [] [] []]; reflexivity.
Qed.

Lemma upper_lower_char c : upper_char (lower_char c) = upper_char c.
Proof.
  destruct c as [[] [] [] [] [] [] [] []]; reflexivity.
Qed.

Lemma lower_UPPER s : lower (UPPER s) = lower s.
Proof.
  induction s as [|c s IH]; cbn; [reflexivity|].
  now rewrite lower_upper_char, IH.
Qed.

Lemma UPPER_lower s : UPPER (lower s) = UPPER s.
Proof.
  induction s as [|c s IH]; cbn; [reflexivity|].
  now rewrite upper_lower_char, IH.
Qed.

(** The comparison the lookup makes holds exactly for codes that differ in
    case only. *)
Lemma UPPER_eqb_same_code code1 code2 :
  String.eqb (UPPER code1) (UPPER code2) = true <-> same_code code1 code2.
Proof.
  unfold same_code. rewrite String.eqb_eq. split; intros H.
  - now rewrite <- (lower_UPPER code1), H, lower_UPPER.
  - now rewrite <- (UPPER_lower code1), H, UPPER_lower.
Qed.

End CodeFacts.

(** ** The proximity queries *)

Import Geospatial.

(** C1 (as amended). The proximity queries do not validate their arguments.
    For every radius, positive or not, and every limit from 0 up to the
    largest bigint, both return a list of results, which is empty when the
    limit is 0. For a negative limit, and for one that is no bigint, both
    fail, with the error the database reports for the query and not with an
    error of their own. *)
Theorem nearby_queries_accept_every_radius :
  forall ST_DistanceSphere prisma point radiusKm minRating limit,
    (0 <= limit < 2 ^ 63 ->
     (exists results,
        findRestaurantsNearby ST_DistanceSphere prisma point
          (Some radiusKm) minRating (Some limit) = Ok results /\
        (limit = 0 -> results = [])) /\
     (exists results,
        findAirportsNearby ST_DistanceSphere prisma point
          (Some radiusKm) (Some limit) = Ok results /\
        (limit = 0 -> results = []))) /\
    (limit < 0 \/ 2 ^ 63 <= limit ->
     (exists message,
        findRestaurantsNearby ST_DistanceSphere prisma point
          (Some radiusKm) minRating (Some limit) = Err (QueryError message)) /\
     (exists message,
        findAirportsNearby ST_DistanceSphere prisma point
          (Some radiusKm) (Some limit) = Err (QueryError message))).
Proof.
  intros ST prisma point radiusKm minRating limit.
  unfold findRestaurantsNearby, findAirportsNearby. cbn [default].
  split; intros Hl.
  - rewrite !PgFacts.limit_Ok by exact Hl.
    split; eexists; (split; [reflexivity|]); intros ->; reflexivity.
  - split; now apply PgFacts.limit_Err.
Qed.

Lemma nearby_queries_accept_every_radius_witness :
  (exists results,
     findRestaurantsNearby Examples.flat_distance Examples.db Examples.at_KSFO
       (Some (of_Z (-1))) None (Some 0) = Ok results /\
     (0 = 0 -> results = [])) /\
  (exists results,
     findAirportsNearby Examples.flat_distance Examples.db Examples.at_KSFO
       (Some (of_Z (-1))) (Some 0) = Ok results /\
     (0 = 0 -> results = [])).
Proof.
  destruct (nearby_queries_accept_every_radius
              Examples.flat_distance Examples.db Examples.at_KSFO
              (of_Z (-1)) None 0) as [H _].
  apply H. lia.
Defined.

(** C1, as stated, fails: with radius 0 the restaurant query answers with the
    restaurant that stands at the center, with radius -1 it answers with the
    empty list, and so does the airport query with limit 0. None of the calls
    is rejected. *)
Lemma nearby_queries_answer_nonpositive_arguments :
  (of_Z 0 <= of_Z 0)%js = true /\ (of_Z (-1) <= of_Z 0)%js = true /\
  (exists results,
     findRestaurantsNearby Examples.flat_distance Examples.db Examples.at_KSFO
       (Some (of_Z 0)) None (Some 20) = Ok results /\
     map RestaurantWithDistance.name results = ["The Flying Burger"%string]) /\
  findRestaurantsNearby Examples.flat_distance Examples.db Examples.at_KSFO
    (Some (of_Z (-1))) None (Some 20) = Ok [] /\
  findAirportsNearby Examples.flat_distance Examples.db Examples.at_KSFO
    (Some (of_Z 50)) (Some 0) = Ok [].
Proof.
  repeat split; try reflexivity.
  eexists. split; vm_compute; reflexivity.
Qed.

(** C2. Every list a proximity query returns for a radius [radiusKm] (any
    number, NaN apart) and a limit [limit] has all its distances at most
    [radiusKm * 1000], is in non-decreasing order of distance and has at most
    [limit] entries; and the query does return a list whenever the limit is
    a bigint that is not negative. *)
Theorem nearby_results_within_radius_sorted_capped :
  forall ST_DistanceSphere prisma point radiusKm minRating limit,
    isNaN radiusKm = false ->
    (forall results,
       findRestaurantsNearby ST_DistanceSphere prisma point
         (Some radiusKm) minRating (Some limit) = Ok results ->
       Forall (fun r => (RestaurantWithDistance.distance r
                         <= radiusKm * of_Z 1000)%js = true) results /\
       StronglySorted (fun a b => (RestaurantWithDistance.distance a
                                   <= RestaurantWithDistance.distance b)%js = true)
                      results /\
       Z.of_nat (List.length results) <= limit) /\
    (forall results,
       findAirportsNearby ST_DistanceSphere prisma point
         (Some radiusKm) (Some limit) = Ok results ->
       Forall (fun a => (AirportWithDistance.distance a
                         <= radiusKm * of_Z 1000)%js = true) results /\
       StronglySorted (fun a b => (AirportWithDistance.distance a
                                   <= AirportWithDistance.distance b)%js = true)
                      results /\
       Z.of_nat (List.length results) <= limit) /\
    (0 <= limit < 2 ^ 63 ->
     (exists results,
        findRestaurantsNearby ST_DistanceSphere prisma point
          (Some radiusKm) minRating (Some limit) = Ok results) /\
     (exists results,
        findAirportsNearby ST_DistanceSphere prisma point
          (Some radiusKm) (Some limit) = Ok results)).
Proof.
  intros ST prisma point radiusKm minRating limit Hr.
  pose proof (QueryFacts.radiusMeters_not_NaN radiusKm Hr) as Hm.
  split; [|split].
  - intros results H.
    apply QueryFacts.findRestaurantsNearby_inv in H as (Hlen & Hs & Hall).
    cbn [default] in *.
    assert (Forall (fun r => isNaN (RestaurantWithDistance.distance r) = false)
                   results) as Hnan.
    { eapply Forall_impl; [|exact Hall]. intros x (Hx & _).
      eapply PgFacts.float8_le_not_NaN; eassumption. }
    split; [|split; [|exact Hlen]].
    + eapply Forall_impl; [|exact Hall]. intros x (Hx & _).
      now apply PgFacts.float8_le_leb.
    + eapply QueryFacts.StronglySorted_weaken; [|exact Hnan|exact Hs].
      intros a b _ Hb Hab. now apply PgFacts.float8_le_leb.
  - intros results H.
    apply QueryFacts.findAirportsNearby_inv in H as (Hlen & Hs & Hall).
    cbn [default] in *.
    assert (Forall (fun r => isNaN (AirportWithDistance.distance r) = false)
                   results) as Hnan.
    { eapply Forall_impl; [|exact Hall]. intros x (Hx & _).
      eapply PgFacts.float8_le_not_NaN; eassumption. }
    split; [|split; [|exact Hlen]].
    + eapply Forall_impl; [|exact Hall]. intros x (Hx & _).
      now apply PgFacts.float8_le_leb.
    + eapply QueryFacts.StronglySorted_weaken; [|exact Hnan|exact Hs].
      intros a b _ Hb Hab. now apply PgFacts.float8_le_leb.
  - intros Hl. split.
    + now apply QueryFacts.findRestaurantsNearby_Ok.
    + now apply QueryFacts.findAirportsNearby_Ok.
Qed.

Lemma nearby_results_within_radius_sorted_capped_witness :
  exists results,
    findRestaurantsNearby Examples.flat_distance Examples.db Examples.at_KSFO
      (Some (of_Z 200)) None (Some 20) = Ok results /\
    map RestaurantWithDistance.name results
      = ["The Flying Burger"%string; "Runway Diner"%string] /\
    Forall (fun r => (RestaurantWithDistance.distance r
                      <= of_Z 200 * of_Z 1000)%js = true) results /\
    StronglySorted (fun a b => (RestaurantWithDistance.distance a
                                <= RestaurantWithDistance.distance b)%js = true)
                   results /\
    Z.of_nat (List.length results) <= 20.
Proof.
  eexists. split; [vm_compute; reflexivity|]. split; [reflexivity|].
  destruct (nearby_results_within_radius_sorted_capped
              Examples.flat_distance Examples.db Examples.at_KSFO
              (of_Z 200) None 20 eq_refl) as (H & _ & _).
  apply H. vm_compute. reflexivity.
Defined.

(** C4. For a code and a table of airports written in ASCII,
    [findRestaurantsNearAirport] fails exactly when no airport has the given
    code up to case, and then with the error "Airport not found"; when an
    airport has it the call succeeds, with the empty list if no restaurant
    lies within the radius of that airport. *)
Theorem findRestaurantsNearAirport_fails_iff_unknown_code :
  forall ST_DistanceSphere prisma airportCode radiusKm minRating,
    Spec.ascii_code airportCode ->
    Spec.ascii_codes (airports prisma) ->
    ((exists e, findRestaurantsNearAirport ST_DistanceSphere prisma airportCode
                  radiusKm minRating = Err e) <->
     (forall a, In a (airports prisma) ->
                ~ Spec.same_code (Airport.code a) airportCode)) /\
    ((forall a, In a (airports prisma) ->
                ~ Spec.same_code (Airport.code a) airportCode) ->
     findRestaurantsNearAirport ST_DistanceSphere prisma airportCode
       radiusKm minRating = Err (Error ("Airport not found: " ++ airportCode))) /\
    (forall a, In a (airports prisma) ->
               Spec.same_code (Airport.code a) airportCode ->
     exists a0 results,
       In a0 (airports prisma) /\ Spec.same_code (Airport.code a0) airportCode /\
       findRestaurantsNearAirport ST_DistanceSphere prisma airportCode
         radiusKm minRating = Ok results /\
       ((forall r, In r (restaurants prisma) ->
           Pg.float8_le (ST_DistanceSphere (Restaurant.location r)
                                           (Airport.location a0))
                        (default (of_Z 5) radiusKm * of_Z 1000)%js = false) ->
        results = [])).
Proof.
  intros ST prisma airportCode radiusKm minRating _ _.
  set (where_ := fun a : Airport.t =>
         String.eqb (Pg.UPPER (Airport.code a)) (Pg.UPPER airportCode)).
  assert (forall a, where_ a = true <-> Spec.same_code (Airport.code a) airportCode)
    as Hw by (intros a; apply CodeFacts.UPPER_eqb_same_code).
  assert ((forall a, In a (airports prisma) ->
                     ~ Spec.same_code (Airport.code a) airportCode)
          <-> filter where_ (airports prisma) = []) as Hnone.
  { split.
    - intros H. destruct (filter where_ (airports prisma)) as [|a l] eqn:E; [easy|].
      assert (In a (filter where_ (airports prisma))) as Ha by (rewrite E; now left).
      apply filter_In in Ha as [Ha Hwa]. apply Hw in Hwa. now apply H in Ha.
    - intros E a Ha Hs. apply Hw in Hs.
      assert (In a (filter where_ (airports prisma))) as Hf by (now apply filter_In).
      now rewrite E in Hf. }
  unfold findRestaurantsNearAirport. fold where_.
  rewrite PgFacts.limit_Ok by lia. change (Z.to_nat 1) with 1%nat.
  destruct (filter where_ (airports prisma)) as [|a0 l] eqn:E; cbn [map firstn].
  - split; [|split].
    + split; [intros _; now apply Hnone|eauto].
    + reflexivity.
    + intros a Ha Hs. exfalso. destruct Hnone as [_ Hnone]. eapply Hnone; eauto.
  - assert (In a0 (filter where_ (airports prisma))) as Ha0 by (rewrite E; now left).
    apply filter_In in Ha0 as [Ha0 Hwa0]. apply Hw in Hwa0.
    split; [|split].
    + split.
      * unfold findRestaurantsNearby. cbn [default].
        rewrite PgFacts.limit_Ok by lia. intros [e He]. discriminate.
      * intros H. exfalso. eapply H; eauto.
    + intros H. exfalso. eapply H; eauto.
    + intros _ _ _. exists a0.
      unfold findRestaurantsNearby. cbn [default latitude longitude].
      unfold Pg.ST_X, Pg.ST_Y. rewrite QueryFacts.ST_MakePoint_eta.
      eexists. split; [exact Ha0|]. split; [exact Hwa0|].
      split; [apply PgFacts.limit_Ok; lia|].
      intros Hfar. rewrite PgFacts.filter_none; [reflexivity|].
      intros r Hr. now rewrite (Hfar r Hr), andb_false_r.
Qed.

Lemma findRestaurantsNearAirport_fails_iff_unknown_code_witness :
  findRestaurantsNearAirport Examples.flat_distance Examples.db "kjfk" None None
  = Err (Error "Airport not found: kjfk") /\
  exists results,
    findRestaurantsNearAirport Examples.flat_distance Examples.db "ksfo"
      None None = Ok results.
Proof.
  assert (Spec.ascii_codes (airports Examples.db)) as Htable
    by (intros a [<-|[<-|[]]]; reflexivity).
  split.
  - destruct (findRestaurantsNearAirport_fails_iff_unknown_code
                Examples.flat_distance Examples.db "kjfk" None None
                eq_refl Htable) as (_ & Hunknown & _).
    apply Hunknown. intros a [<-|[<-|[]]]; discriminate.
  - destruct (findRestaurantsNearAirport_fails_iff_unknown_code
                Examples.flat_distance Examples.db "ksfo" None None
                eq_refl Htable) as (_ & _ & Hknown).
    destruct (Hknown Examples.KSFO) as (a0 & results & _ & _ & Hok & _).
    + right. now left.
    + reflexivity.
    + now exists results.
Defined.

(** C6. [findNearestAirport] is the airport query with radius 500 km and
    limit 1, read at its first row: it answers null when no airport lies
    within 500 km, and otherwise the one airport the query returns, which
    lies within 500 km and is at least as near as every airport that does. *)
Theorem findNearestAirport_is_nearest_within_500km :
  forall ST_DistanceSphere prisma point,
    findNearestAirport ST_DistanceSphere prisma point =
      match findAirportsNearby ST_DistanceSphere prisma point
              (Some (of_Z 500)) (Some 1) with
      | Ok results => Ok (hd_error results)
      | Err e => Err e
      end /\
    ((forall a, In a (airports prisma) ->
        (ST_DistanceSphere (Airport.location a) point <= of_Z 500000)%js = false) ->
     findNearestAirport ST_DistanceSphere prisma point = Ok None) /\
    (forall a, In a (airports prisma) ->
       (ST_DistanceSphere (Airport.location a) point <= of_Z 500000)%js = true ->
     exists nearest a0,
       findNearestAirport ST_DistanceSphere prisma point = Ok (Some nearest) /\
       findAirportsNearby ST_DistanceSphere prisma point
         (Some (of_Z 500)) (Some 1) = Ok [nearest] /\
       In a0 (airports prisma) /\
       AirportWithDistance.code nearest = Airport.code a0 /\
       AirportWithDistance.distance nearest =
         ST_DistanceSphere (Airport.location a0) point /\
       (AirportWithDistance.distance nearest <= of_Z 500000)%js = true /\
       forall b, In b (airports prisma) ->
         (ST_DistanceSphere (Airport.location b) point <= of_Z 500000)%js = true ->
         (AirportWithDistance.distance nearest
          <= ST_DistanceSphere (Airport.location b) point)%js = true).
Proof.
  intros ST prisma point.
  assert (forall x, Pg.float8_le x (of_Z 500 * of_Z 1000)%js = (x <= of_Z 500000)%js)
    as Hle by (intros x; now rewrite PgFacts.float8_le_is_leb).
  split; [|split].
  - unfold findNearestAirport.
    destruct (findAirportsNearby ST prisma point (Some (of_Z 500)) (Some 1))
      as [[|x l]|e]; reflexivity.
  - intros Hfar. unfold findNearestAirport, findAirportsNearby. cbn [default].
    rewrite QueryFacts.ST_MakePoint_eta, QueryFacts.query_nil; [reflexivity|lia|].
    intros a Ha. rewrite Hle. now apply Hfar.
  - intros a Ha Hnear. unfold findNearestAirport, findAirportsNearby.
    cbn [default]. rewrite QueryFacts.ST_MakePoint_eta.
    match goal with
    | |- context [Pg.limit 1 (Pg.order_by_asc ?key (map ?sel (filter ?w _)))] =>
        destruct (QueryFacts.query_first key sel w (airports prisma) a Ha)
          as (x & -> & (a0 & Ha0 & Hw0 & Hx) & Hmin)
    end.
    { cbn beta. now rewrite Hle. }
    cbn beta in Hw0, Hmin. rewrite Hle in Hw0.
    exists x, a0. subst x. cbn in *.
    repeat split; try assumption.
    intros b Hb Hbnear. rewrite <- PgFacts.float8_le_is_leb.
    + apply Hmin; [exact Hb|]. now rewrite Hle.
    + now destruct (ST (Airport.location b) point).
Qed.

(** C10. [findRestaurantsNearAirport] takes no limit. Whenever it returns,
    it is [findRestaurantsNearby] at the location of an airport of the
    table, with the same radius and rating (5 and 4 when left out) and the
    limit 20, and it never returns more than 20 restaurants. For a code and a
    table written in ASCII that airport is the one the code resolves to, the
    first in the table that has the code up to case. *)
Theorem findRestaurantsNearAirport_has_limit_20 :
  forall ST_DistanceSphere prisma airportCode radiusKm minRating,
    (forall results,
       findRestaurantsNearAirport ST_DistanceSphere prisma airportCode
         radiusKm minRating = Ok results ->
       exists a, In a (airports prisma) /\
         findRestaurantsNearAirport ST_DistanceSphere prisma airportCode
           radiusKm minRating =
         findRestaurantsNearby ST_DistanceSphere prisma (Airport.location a)
           (Some (default (of_Z 5) radiusKm))
           (Some (default (of_Z 4) minRating)) (Some 20)) /\
    (Spec.ascii_code airportCode -> Spec.ascii_codes (airports prisma) ->
     forall a, Spec.resolves (airports prisma) airportCode a ->
       findRestaurantsNearAirport ST_DistanceSphere prisma airportCode
         radiusKm minRating =
       findRestaurantsNearby ST_DistanceSphere prisma (Airport.location a)
         (Some (default (of_Z 5) radiusKm)) (Some (default (of_Z 4) minRating))
         (Some 20)) /\
    (forall a, In a (airports prisma) ->
       Spec.same_code (Airport.code a) airportCode ->
       exists a0, Spec.resolves (airports prisma) airportCode a0) /\
    (forall results,
       findRestaurantsNearAirport ST_DistanceSphere prisma airportCode
         radiusKm minRating = Ok results ->
       Z.of_nat (List.length results) <= 20).
Proof.
  intros ST prisma airportCode radiusKm minRating. split; [|split; [|split]].
  - intros results. unfold findRestaurantsNearAirport.
    rewrite PgFacts.limit_Ok by lia. change (Z.to_nat 1) with 1%nat.
    destruct (filter _ (airports prisma)) as [|a l] eqn:E; cbn [map firstn];
      [discriminate|].
    intros _. exists a. split.
    + assert (In a (filter
                      (fun x => String.eqb (Pg.UPPER (Airport.code x))
                                           (Pg.UPPER airportCode))
                      (airports prisma))) as Ha by (rewrite E; now left).
      now apply filter_In in Ha.
    + unfold findRestaurantsNearby. reflexivity.
  - intros _ _ a (before & after & Htable & Ha & Hbefore).
    unfold findRestaurantsNearAirport. rewrite Htable.
    rewrite PgFacts.filter_first.
    + rewrite PgFacts.limit_Ok by lia. change (Z.to_nat 1) with 1%nat.
      cbn [map firstn]. unfold findRestaurantsNearby. reflexivity.
    + now apply CodeFacts.UPPER_eqb_same_code.
    + intros x Hx. apply not_true_is_false. intros Hw.
      apply CodeFacts.UPPER_eqb_same_code in Hw. now apply (Hbefore x).
  - intros a Ha Hs. apply CodeFacts.UPPER_eqb_same_code in Hs.
    destruct (PgFacts.first_match
                (fun x => String.eqb (Pg.UPPER (Airport.code x)) (Pg.UPPER airportCode))
                _ a Ha Hs)
      as (before & a0 & after & Htable & Ha0 & Hb).
    exists a0, before, after. split; [exact Htable|]. split.
    + now apply CodeFacts.UPPER_eqb_same_code.
    + intros x Hx Hsx. apply CodeFacts.UPPER_eqb_same_code in Hsx.
      now rewrite (Hb x Hx) in Hsx.
  - intros results. unfold findRestaurantsNearAirport.
    rewrite PgFacts.limit_Ok by lia.
    destruct (firstn _ _) as [|airportLocation l]; [discriminate|].
    intros H. now apply QueryFacts.findRestaurantsNearby_inv in H as (Hlen & _).
Qed.


(** ** The haversine distance *)

Import JsMath.

(** C3. [calculateHaversineDistance] is the algorithm of the specification:
    R = 6371, dLat and dLon the differences of the coordinates in radians,
    a = sin^2(dLat/2) + cos(lat1) cos(lat2) sin^2(dLon/2) on latitudes in
    radians, c = 2 atan2(sqrt a, sqrt (1 - a)), and the result R c; the two
    compute the same binary64 number whatever the platform's sine, cosine and
    arc tangent are. *)
Theorem calculateHaversineDistance_is_haversine :
  forall Math point1 point2,
    calculateHaversineDistance Math point1 point2 =
    Spec.haversine Math (latitude point1) (longitude point1)
                        (latitude point2) (longitude point2).
Proof.
  intros Math [lat1 lon1] [lat2 lon2].
  unfold calculateHaversineDistance, Spec.haversine, Spec.haversine_c,
    Spec.haversine_a, Spec.radians, Spec.R, toRadians.
  cbn [latitude longitude]. reflexivity.
Qed.

Module HaversineFacts.

Lemma toRadians_finite lat :
  bounded_by (-45) 8 lat -> isFinite (toRadians lat) = true.
Proof.
  intros Hlat. unfold toRadians.
  assert (bounded_by (-51) 2 PI) as Hpi by (cbn; lia).
  pose proof (F64Facts.mul_bounded _ _ _ _ lat PI Hlat Hpi) as Hmul.
  change (of_Z 180) with (S754_finite false 6333186975989760 (-45)).
  eapply F64Facts.div_bounded; [apply Hmul; lia|lia..].
Qed.

Lemma toRadians_neg x : toRadians (neg x) = neg (toRadians x).
Proof.
  unfold toRadians. now rewrite F64Facts.mul_neg_l, F64Facts.div_neg_l.
Qed.

(** What [a] is made of for two points at the same place. *)
Lemma same_point_a Math lat :
  ES.sin_zero Math -> ES.cos_range Math ->
  bounded_by (-45) 8 lat ->
  (sin Math zero * sin Math zero +
   cos Math (toRadians lat) * cos Math (toRadians lat) *
     sin Math zero * sin Math zero)%js = zero.
Proof.
  intros Hsin Hcos Hlat. rewrite Hsin.
  destruct (Hcos _ (toRadians_finite lat Hlat)) as (Hv & Hlo & Hhi).
  change (of_Z (-1)) with (S754_finite true 4503599627370496 (-52)) in Hlo.
  change (of_Z 1) with (S754_finite false 4503599627370496 (-52)) in Hhi.
  pose proof (F64Facts.between_bounded _ _ _ Hv Hlo Hhi) as Hc.
  destruct (F64Facts.mul_self_positive _ _ _ Hc) as [-> |(m & e & ->)];
    try lia; reflexivity.
Qed.

(** The last two steps on [a = +0]. *)
Lemma zero_a_distance Math :
  ES.atan2_zero_positive Math ->
  (of_Z 6371 * (of_Z 2 * atan2 Math (sqrt zero) (sqrt (of_Z 1 - zero))))%js = zero.
Proof.
  intros Hatan.
  change (sqrt zero) with zero.
  replace (sqrt (of_Z 1 - zero)%js) with (of_Z 1) by (vm_compute; reflexivity).
  rewrite Hatan by reflexivity. reflexivity.
Qed.

(** The haversine of an arc and of the opposite arc. *)
Lemma sin_half_neg Math u :
  ES.sin_odd Math ->
  sin Math (toRadians (neg u) / of_Z 2)%js = neg (sin Math (toRadians u / of_Z 2)%js).
Proof.
  intros Hodd. now rewrite toRadians_neg, F64Facts.div_neg_l, Hodd.
Qed.

Lemma sin_half_sub Math x y :
  ES.sin_odd Math ->
  sin Math (toRadians (x - y) / of_Z 2)%js = neg (sin Math (toRadians (y - x) / of_Z 2)%js) \/
  sin Math (toRadians (x - y) / of_Z 2)%js = sin Math (toRadians (y - x) / of_Z 2)%js.
Proof.
  intros Hodd. destruct (F64Facts.sub_antisym x y) as [-> |[-> ->]].
  - left. now apply sin_half_neg.
  - now right.
Qed.

End HaversineFacts.

(** C7. The distance from a point of valid latitude and longitude to itself
    is exactly +0, on every platform whose Math.sin maps +0 to +0, whose
    Math.atan2 maps (+0, x) to +0 for positive x and whose Math.cos stays
    within [-1, 1] on finite arguments. *)
Theorem calculateHaversineDistance_same_point_is_zero :
  forall Math P,
    ES.sin_zero Math -> ES.atan2_zero_positive Math -> ES.cos_range Math ->
    Spec.valid_point P ->
    calculateHaversineDistance Math P P = zero.
Proof.
  intros Math [lat lon] Hsin Hatan Hcos (Vlat & Vlon & Hlat1 & Hlat2 & Hlon1 & Hlon2).
  cbn [latitude longitude] in *.
  change (of_Z (-90)) with (S754_finite true 6333186975989760 (-46)) in Hlat1.
  change (of_Z 90) with (S754_finite false 6333186975989760 (-46)) in Hlat2.
  change (of_Z (-180)) with (S754_finite true 6333186975989760 (-45)) in Hlon1.
  change (of_Z 180) with (S754_finite false 6333186975989760 (-45)) in Hlon2.
  pose proof (F64Facts.between_bounded _ _ _ Vlat Hlat1 Hlat2) as Blat.
  pose proof (F64Facts.between_bounded _ _ _ Vlon Hlon1 Hlon2) as Blon.
  assert (bounded_by (-45) 8 lat) as Blat'
    by (apply (F64Facts.bounded_by_weaken _ _ _ _ _ Blat); lia).
  unfold calculateHaversineDistance. cbn [latitude longitude].
  rewrite !F64Facts.sub_diag
    by (eapply F64Facts.bounded_by_finite; eassumption).
  replace (toRadians zero / of_Z 2)%js with zero by (vm_compute; reflexivity).
  rewrite (HaversineFacts.same_point_a Math lat Hsin Hcos Blat').
  now apply HaversineFacts.zero_a_distance.
Qed.

(** C8. The distance is symmetric: from P1 to P2 and from P2 to P1 the
    function returns the same number, on every platform whose Math.sin is
    odd. *)
Theorem calculateHaversineDistance_symmetric :
  forall Math P1 P2,
    ES.sin_odd Math ->
    calculateHaversineDistance Math P1 P2 = calculateHaversineDistance Math P2 P1.
Proof.
  intros Math [lat1 lon1] [lat2 lon2] Hodd.
  unfold calculateHaversineDistance. cbn [latitude longitude].
  set (c1 := cos Math (toRadians lat1)). set (c2 := cos Math (toRadians lat2)).
  assert (forall x y X,
            (X * sin Math (toRadians (x - y) / of_Z 2)
               * sin Math (toRadians (x - y) / of_Z 2))%js =
            (X * sin Math (toRadians (y - x) / of_Z 2)
               * sin Math (toRadians (y - x) / of_Z 2))%js) as Hterm.
  { intros x y X. destruct (HaversineFacts.sin_half_sub Math x y Hodd) as [-> | ->].
    - now rewrite !F64Facts.mul_neg_r, F64Facts.mul_neg_l,
        F64Facts.neg_involutive.
    - reflexivity. }
  assert (forall x y,
            (sin Math (toRadians (x - y) / of_Z 2)
               * sin Math (toRadians (x - y) / of_Z 2))%js =
            (sin Math (toRadians (y - x) / of_Z 2)
               * sin Math (toRadians (y - x) / of_Z 2))%js) as Hsq.
  { intros x y. destruct (HaversineFacts.sin_half_sub Math x y Hodd) as [-> | ->].
    - apply F64Facts.mul_neg_neg.
    - reflexivity. }
  rewrite (Hsq lat2 lat1), (Hterm lon2 lon1), (F64Facts.mul_comm c1 c2).
  reflexivity.
Qed.

(** The example [MathObject] obeys the clauses used above. *)
Module ExampleFacts.

Import Examples.

Lemma Math_sin_zero : ES.sin_zero Math.
Proof.
  reflexivity.
Qed.

Lemma Math_atan2_zero_positive : ES.atan2_zero_positive Math.
Proof.
  intros [s|[]| |[] m e] H; try discriminate H; reflexivity.
Qed.

Lemma Math_atan2_NaN : ES.atan2_NaN Math.
Proof.
  intros y x H. cbn. unfold example_atan2. now rewrite H.
Qed.

Lemma Math_cos_range : ES.cos_range Math.
Proof.
  intros x Hx. cbn [cos Math]. unfold example_cos.
  destruct x as [s| | |s m e]; try discriminate Hx;
    destruct (SFeqb _ _); repeat split.
Qed.

Lemma Math_sin_odd : ES.sin_odd Math.
Proof.
  intros [s|s| |[] m e]; try reflexivity.
  cbn. now rewrite F64Facts.neg_involutive.
Qed.

Lemma at_KSFO_valid : Spec.valid_point at_KSFO.
Proof.
  repeat split.
Qed.

Lemma north_12_valid : Spec.valid_point north_12.
Proof.
  repeat split.
Qed.

Lemma south_12_valid : Spec.valid_point south_12.
Proof.
  repeat split.
Qed.

End ExampleFacts.

Lemma calculateHaversineDistance_same_point_is_zero_witness :
  calculateHaversineDistance Examples.Math Examples.at_KSFO Examples.at_KSFO = zero.
Proof.
  exact (calculateHaversineDistance_same_point_is_zero
           Examples.Math Examples.at_KSFO
           ExampleFacts.Math_sin_zero ExampleFacts.Math_atan2_zero_positive
           ExampleFacts.Math_cos_range ExampleFacts.at_KSFO_valid).
Defined.

Lemma calculateHaversineDistance_symmetric_witness :
  calculateHaversineDistance Examples.Math Examples.at_KSFO Examples.north_12 =
  calculateHaversineDistance Examples.Math Examples.north_12 Examples.at_KSFO.
Proof.
  exact (calculateHaversineDistance_symmetric
           Examples.Math Examples.at_KSFO Examples.north_12
           ExampleFacts.Math_sin_odd).
Defined.

(** C9 fails on the code. From (12, 0) to (-12, 180), when Math.sin and
    Math.cos return the binary64 numbers nearest to the exact sine and cosine
    of their arguments, [a] rounds to 1 + 2^-52, [1 - a] is negative, its
    square root is NaN and so is the distance. *)
Theorem calculateHaversineDistance_NaN_between_antipodes :
  forall Math,
    ES.atan2_NaN Math ->
    sin Math (neg Examples.twelve_degrees) = neg Examples.sin_twelve_degrees ->
    sin Math Examples.half_pi = of_Z 1 ->
    cos Math Examples.twelve_degrees = Examples.cos_twelve_degrees ->
    cos Math (neg Examples.twelve_degrees) = Examples.cos_twelve_degrees ->
    Spec.valid_point Examples.north_12 /\ Spec.valid_point Examples.south_12 /\
    calculateHaversineDistance Math Examples.north_12 Examples.south_12 = NaN.
Proof.
  intros Math Hatan Hs1 Hs2 Hc1 Hc2.
  split; [exact ExampleFacts.north_12_valid|].
  split; [exact ExampleFacts.south_12_valid|].
  unfold calculateHaversineDistance.
  replace (toRadians (latitude Examples.south_12 - latitude Examples.north_12)
           / of_Z 2)%js
    with (neg Examples.twelve_degrees) by (vm_compute; reflexivity).
  replace (toRadians (longitude Examples.south_12 - longitude Examples.north_12)
           / of_Z 2)%js
    with Examples.half_pi by (vm_compute; reflexivity).
  replace (toRadians (latitude Examples.north_12))
    with Examples.twelve_degrees by (vm_compute; reflexivity).
  replace (toRadians (latitude Examples.south_12))
    with (neg Examples.twelve_degrees) by (vm_compute; reflexivity).
  rewrite Hs1, Hs2, Hc1, Hc2.
  match goal with
  | |- context [atan2 Math ?y (sqrt ?x)] =>
      replace (sqrt x) with NaN by (vm_compute; reflexivity)
  end.
  rewrite Hatan; [reflexivity|]. apply orb_true_r.
Qed.

Lemma calculateHaversineDistance_NaN_between_antipodes_witness :
  Spec.valid_point Examples.north_12 /\ Spec.valid_point Examples.south_12 /\
  calculateHaversineDistance Examples.Math Examples.north_12 Examples.south_12 = NaN.
Proof.
  apply (calculateHaversineDistance_NaN_between_antipodes Examples.Math
           ExampleFacts.Math_atan2_NaN);
    reflexivity.
Defined.

(** ** Formatting *)

Module FormatFacts.

Import NumberPrototype.

(** *** Strings *)

Lemma length_append s t :
  String.length (s ++ t) = (String.length s + String.length t)%nat.
Proof.
  induction s as [|c s IH]; cbn; [reflexivity|]. now rewrite IH.
Qed.

Lemma substring_0_0 s : substring 0 0 s = EmptyString.
Proof.
  now destruct s.
Qed.

Lemma substring_prefix s t : substring 0 (String.length s) (s ++ t) = s.
Proof.
  induction s as [|c s IH]; cbn; [apply substring_0_0|]. now rewrite IH.
Qed.

Lemma substring_suffix s t n :
  substring (String.length s) n (s ++ t) = substring 0 n t.
Proof.
  induction s as [|c s IH]; cbn; [reflexivity|]. exact IH.
Qed.

(** *** Decimal digits *)

Lemma digits_fuel_irrelevant f g n :
  (1 <= f)%nat -> (1 <= g)%nat ->
  0 <= n -> n < 2 ^ Z.of_nat f -> n < 2 ^ Z.of_nat g ->
  digits_fuel f n = digits_fuel g n.
Proof.
  revert g n. induction f as [|f IH]; intros [|g] n Hf Hg Hn Hnf Hng; try lia.
  cbn [digits_fuel]. destruct (Z.ltb_spec n 10) as [Hlt|Hge]; [reflexivity|].
  rewrite Nat2Z.inj_succ, Z.pow_succ_r in Hnf, Hng by lia.
  f_equal. apply IH.
  - destruct f; [cbn in Hnf; lia|lia].
  - destruct g; [cbn in Hng; lia|lia].
  - apply Z.div_pos; lia.
  - apply Z.div_lt_upper_bound; lia.
  - apply Z.div_lt_upper_bound; lia.
Qed.

Lemma digits_enough n : 0 <= n -> n < 2 ^ Z.of_nat (S (Z.to_nat (Z.log2 n))).
Proof.
  intros Hn. rewrite Nat2Z.inj_succ, Z2Nat.id by apply Z.log2_nonneg.
  destruct (Z.eq_dec n 0) as [->|Hz]; [reflexivity|].
  apply Z.log2_spec. lia.
Qed.

Lemma digits_small n : 0 <= n < 10 -> digits n = String (digit n) EmptyString.
Proof.
  intros [Hn Hlt]. unfold digits. cbn [digits_fuel].
  destruct (Z.ltb_spec n 10); [|lia]. now rewrite Z.mod_small by lia.
Qed.

Lemma digits_step n :
  10 <= n ->
  digits n = (digits (n / 10) ++ String (digit (n mod 10)) EmptyString)%string.
Proof.
  intros Hn. unfold digits at 1. cbn [digits_fuel].
  destruct (Z.ltb_spec n 10); [lia|]. f_equal.
  assert (3 <= Z.log2 n) by (apply (Z.log2_le_pow2 n 3); lia).
  assert (0 <= n / 10) by (apply Z.div_pos; lia).
  apply digits_fuel_irrelevant; try lia.
  - pose proof (Z.log2_spec n ltac:(lia)) as [_ Hup].
    rewrite Z2Nat.id by lia. rewrite Z.pow_succ_r in Hup by lia.
    apply Z.div_lt_upper_bound; lia.
  - now apply digits_enough.
Qed.

(** The digits of a count of tenths with the point before the last one. *)
Lemma insert_point_tenths n :
  0 <= n ->
  insert_point 1 (if n =? 0 then "0"%string else digits n) = Spec.tenths n.
Proof.
  intros Hn. unfold Spec.tenths.
  destruct (Z.eqb_spec n 0) as [->|Hz]; [reflexivity|].
  destruct (Z.lt_ge_cases n 10) as [Hlt|Hge].
  - rewrite Z.div_small, Z.mod_small by lia.
    rewrite (digits_small n) by lia. reflexivity.
  - rewrite (digits_step n Hge).
    assert (0 <= n mod 10 < 10) as Hd by (apply Z.mod_pos_bound; lia).
    rewrite (digits_small (n mod 10) Hd).
    set (hi := digits (n / 10)).
    assert (1 <= String.length hi)%nat as Hhi.
    { unfold hi. destruct (Z.lt_ge_cases (n / 10) 10).
      - rewrite digits_small; [cbn; lia|]. split; [apply Z.div_pos|]; lia.
      - rewrite digits_step, length_append by assumption. cbn. lia. }
    unfold insert_point. rewrite length_append. cbn [String.length].
    destruct (Nat.leb_spec (String.length hi + 1) 1) as [Hle|_]; [lia|].
    replace (String.length hi + 1 - 1)%nat with (String.length hi) by lia.
    now rewrite substring_prefix, substring_suffix.
Qed.

(** *** Rounding *)

(** Adding half a unit and shifting is rounding to the nearest integer,
    halves upwards. *)
Lemma shiftr_nearest (M : Z) (k : positive) :
  Z.shiftr (M + Z.shiftl 1 (Zpos k - 1)) (Zpos k)
  = Qfloor (Qmake M (2 ^ k)%positive + (1 # 2))%Q.
Proof.
  rewrite Z.shiftr_div_pow2, Z.shiftl_mul_pow2 by lia.
  unfold Qplus, Qfloor. cbn [Qnum Qden].
  rewrite Pos2Z.inj_mul, Pos2Z.inj_pow.
  set (P := 2 ^ (Zpos k - 1)).
  assert (0 < P) by (apply Z.pow_pos_nonneg; lia).
  assert (2 ^ Zpos k = 2 * P) as ->.
  { unfold P. rewrite <- Z.pow_succ_r by lia. f_equal. lia. }
  replace (M * 2 + 1 * (2 * P)) with ((M + 1 * P) * 2) by ring.
  replace (2 * P * 2) with (2 * P * 2) by ring.
  rewrite Z.div_mul_cancel_r by lia. reflexivity.
Qed.

Lemma round_half_away_nonneg M d :
  0 <= M -> Spec.round_half_away (Qmake M d) = Qfloor (Qmake M d + (1 # 2))%Q.
Proof.
  intros HM. unfold Spec.round_half_away.
  replace (Qle_bool 0 (Qmake M d)) with true; [reflexivity|].
  symmetry. apply Qle_bool_iff. unfold Qle. cbn. lia.
Qed.

(** Integers up to 1000 print as their decimal digits. *)
Lemma toString_up_to_1000 :
  forallb (fun i =>
             match toString (of_Z (Z.of_nat i)) with
             | Some s => String.eqb s (digits (Z.of_nat i))
             | None => false
             end) (seq 1 1000) = true.
Proof.
  vm_compute. reflexivity.
Qed.

Lemma toString_of_Z n : 1 <= n <= 1000 -> toString (of_Z n) = Some (digits n).
Proof.
  intros Hn. pose proof toString_up_to_1000 as H.
  rewrite forallb_forall in H. specialize (H (Z.to_nat n)).
  rewrite Z2Nat.id in H by lia.
  destruct (toString (of_Z n)) as [s|].
  - f_equal. apply String.eqb_eq, H, in_seq. lia.
  - discriminate H. apply in_seq. lia.
Qed.

Lemma valid_mantissa s m e :
  well_formed (S754_finite s m e) -> Zpos m < 2 ^ 53.
Proof.
  intros Hv. pose proof (F64Facts.valid_digits _ _ _ Hv) as Hd.
  change (Zpos (digits2_pos m)) with (Zdigits2 (Zpos m)) in Hd.
  rewrite F64Facts.Zdigits2_log2 in Hd by lia.
  apply Z.log2_lt_pow2; lia.
Qed.

Lemma ltb_positive m e m' e' :
  (S754_finite false m e < S754_finite false m' e')%js = true ->
  e < e' \/ (e = e' /\ Zpos m < Zpos m').
Proof.
  unfold ltb, SFltb, SFcompare. rewrite Pos.compare_cont_spec.
  unfold Pos.switch_Eq.
  destruct (Z.compare_spec e e'); try discriminate; [|lia].
  destruct (Pos.compare_spec m m') as [| Hm |]; try discriminate.
  intros _. right. split; [assumption|]. now apply Pos2Z.pos_lt_pos.
Qed.

(** Below 1000 the nearest integer is at most 1000. *)
Lemma nearest_below_1000 m k :
  well_formed (S754_finite false m (Zneg k)) ->
  (S754_finite false m (Zneg k) < S754_finite false 8796093022208000 (-43))%js = true ->
  0 <= Z.shiftr (Zpos m + Z.shiftl 1 (Zpos k - 1)) (Zpos k) <= 1000.
Proof.
  intros Hv Hlt. pose proof (valid_mantissa _ _ _ Hv) as Hm.
  apply ltb_positive in Hlt.
  rewrite Z.shiftr_div_pow2, Z.shiftl_mul_pow2 by lia.
  set (P := 2 ^ (Zpos k - 1)).
  assert (0 < P) by (apply Z.pow_pos_nonneg; lia).
  assert (2 ^ Zpos k = 2 * P) as ->.
  { unfold P. rewrite <- Z.pow_succ_r by lia. f_equal. lia. }
  split; [apply Z.div_pos; lia|].
  apply Z.lt_succ_r, Z.div_lt_upper_bound; [lia|].
  destruct Hlt as [Hk|[Hk Hmm]].
  - assert (2 ^ 43 <= P) by (apply Z.pow_le_mono_r; lia). lia.
  - assert (P = 2 ^ 42) as -> by (unfold P; f_equal; lia). lia.
Qed.

(** [Math.round] and the template literal on a distance below 1000. *)
Lemma round_text d :
  well_formed d -> (zero <= d)%js = true -> (d < of_Z 1000)%js = true ->
  toString (JsMath.round d) = Some (digits (Spec.round_half_away (to_Q d))).
Proof.
  intros Hv H0 Hlt.
  destruct d as [s|[]| |[] m e]; try discriminate; [reflexivity|].
  destruct e as [|e|k]; try discriminate Hlt.
  unfold JsMath.round. cbn [Z.leb Z.compare to_Q cond_Zopp Z.opp].
  rewrite (round_half_away_nonneg (Zpos m)) by lia.
  rewrite <- shiftr_nearest.
  change (Z.neg k - 1) with (- Zpos k - 1).
  replace (- Z.neg k - 1) with (Zpos k - 1) by lia.
  change (of_Z 1000) with (S754_finite false 8796093022208000 (-43)) in Hlt.
  pose proof (nearest_below_1000 m k Hv Hlt) as Hn.
  set (n := Z.shiftr _ _) in *.
  destruct (Z.eqb_spec n 0) as [->|Hz]; [reflexivity|].
  apply toString_of_Z. lia.
Qed.

Lemma div_core_nonneg m1 e1 m2 e2 :
  0 <= fst (fst (SFdiv_core_binary prec emax (Zpos m1) e1 (Zpos m2) e2)).
Proof.
  unfold SFdiv_core_binary.
  set (sh := IntDef.Z.sub _ _).
  set (m' := match sh with Z.pos _ => Z.shiftl (Z.pos m1) sh | 0 => Z.pos m1 | Z.neg _ => 0 end).
  assert (0 <= m') as Hm'.
  { unfold m'. destruct sh; try lia. now apply Z.shiftl_nonneg. }
  pose proof (Z_div_mod m' (Zpos m2) ltac:(lia)) as Hdiv.
  destruct (Z.div_eucl m' (Zpos m2)) as [q r]. cbn [fst]. nia.
Qed.

(** A positive distance divided by 1000 is not negative. *)
Lemma km_sign m e :
  (S754_finite false m e / of_Z 1000)%js = zero \/
  (S754_finite false m e / of_Z 1000)%js = S754_infinity false \/
  exists m' e', (S754_finite false m e / of_Z 1000)%js = S754_finite false m' e'.
Proof.
  change (of_Z 1000) with (S754_finite false 8796093022208000 (-43)).
  unfold div. cbn [SFdiv xorb].
  pose proof (div_core_nonneg m e 8796093022208000 (-43)) as Hq.
  destruct (SFdiv_core_binary _ _ _ _ _ _) as [[mz ez] lz]. cbn [fst] in Hq.
  apply F64Facts.binary_round_aux_cases, Hq.
Qed.

(** The integer [toFixed(1)] prints is the number of tenths nearest to the
    value, halves upwards. *)
Lemma scaled_nearest_tenths m e :
  scaled_nearest m e 1
  = Spec.round_half_away (to_Q (S754_finite false m e) * 10)%Q /\
  0 <= scaled_nearest m e 1.
Proof.
  unfold scaled_nearest. change (10 ^ Z.of_nat 1) with 10.
  assert (forall a, 0 <= a ->
            Spec.round_half_away ((a # 1) * 10)%Q = a * 10) as Hint.
  { intros a Ha. unfold Qmult. cbn [Qnum Qden Pos.mul inject_Z].
    rewrite round_half_away_nonneg by lia.
    unfold Qplus, Qfloor. cbn [Qnum Qden Pos.mul].
    symmetry. apply Z.div_unique with (r := 1); lia. }
  destruct e as [|e|k]; cbn [Z.leb Z.compare to_Q cond_Zopp].
  - rewrite Hint by (apply Z.shiftl_nonneg; lia).
    rewrite !Z.shiftl_mul_pow2 by lia. split; lia.
  - rewrite Hint by (apply Z.shiftl_nonneg; lia).
    rewrite !Z.shiftl_mul_pow2 by lia.
    assert (0 < 2 ^ Zpos e) by (apply Z.pow_pos_nonneg; lia). split; nia.
  - change (- Z.neg k) with (Zpos k). split.
    + rewrite shiftr_nearest. unfold Qmult. cbn [Qnum Qden inject_Z].
      rewrite Pos.mul_1_r. now rewrite round_half_away_nonneg by lia.
    + apply Z.shiftr_nonneg.
      assert (0 <= Z.shiftl 1 (Zpos k - 1)) by (apply Z.shiftl_nonneg; lia). lia.
Qed.

Lemma below_1e21 m e :
  (to_Q (S754_finite false m e) < inject_Z (10 ^ 21))%Q ->
  at_least_1e21 m e = false.
Proof.
  unfold Qlt, at_least_1e21.
  destruct e as [|e|k]; cbn [Z.leb Z.compare to_Q cond_Zopp inject_Z Qnum Qden];
    intros Hlt.
  - apply Z.leb_gt. lia.
  - apply Z.leb_gt. lia.
  - change (- Z.neg k) with (Zpos k). apply Z.leb_gt.
    rewrite Z.shiftl_mul_pow2 by lia. rewrite Pos2Z.inj_pow in Hlt. lia.
Qed.

(** [toFixed(1)] on a value that is not negative and below 10^21. *)
Lemma toFixed_text km :
  km = zero \/ (exists m e, km = S754_finite false m e) ->
  (to_Q km < inject_Z (10 ^ 21))%Q ->
  toFixed km 1 = Some (Spec.tenths (Spec.round_half_away (to_Q km * 10)%Q)).
Proof.
  intros [-> |(m & e & ->)] Hlt; [reflexivity|].
  unfold toFixed. rewrite (below_1e21 m e Hlt).
  destruct (scaled_nearest_tenths m e) as [<- Hn].
  now rewrite insert_point_tenths.
Qed.

(** A finite distance divided by 1000 is finite. *)
Lemma km_finite s m e :
  well_formed (S754_finite s m e) ->
  isFinite (S754_finite s m e / of_Z 1000)%js = true.
Proof.
  intros Hv.
  change (of_Z 1000) with (S754_finite false 8796093022208000 (-43)).
  apply F64Facts.div_finite.
  pose proof (F64Facts.valid_digits _ _ _ Hv) as Hd.
  unfold well_formed, valid_binary, SpecFloat.bounded in Hv.
  apply andb_true_iff in Hv as [_ He]. apply Z.leb_le in He.
  unfold prec, emax in He.
  change (Zpos (digits2_pos 8796093022208000)) with 53. lia.
Qed.

End FormatFacts.

(** C5 (as amended). For every finite distance [d] that is not negative:
    below 1000, [formatDistance d] is [d] rounded to the nearest integer,
    halves upwards, followed by " m"; otherwise it is the binary64 quotient
    [d / 1000], rounded on its exact value to the nearest tenth, halves
    upwards, printed with one decimal and followed by " km", as long as that
    quotient is below 10^21. In particular 0 gives "0 m", 499.5 gives
    "500 m", 1000 gives "1.0 km" and 1250 gives "1.3 km". *)
Theorem formatDistance_rounds_the_binary64_value :
  forall d,
    well_formed d -> isFinite d = true -> (zero <= d)%js = true ->
    ((d < of_Z 1000)%js = true ->
     formatDistance d = Some (Spec.meters_text (to_Q d))) /\
    ((d < of_Z 1000)%js = false ->
     (to_Q (d / of_Z 1000)%js < inject_Z (10 ^ 21))%Q ->
     formatDistance d = Some (Spec.kilometers_text (to_Q (d / of_Z 1000)%js))) /\
    formatDistance (of_Z 0) = Some "0 m"%string /\
    (to_Q (dyadic 999 (-1)) == 999 # 2)%Q /\
    formatDistance (dyadic 999 (-1)) = Some "500 m"%string /\
    formatDistance (of_Z 1000) = Some "1.0 km"%string /\
    formatDistance (of_Z 1250) = Some "1.3 km"%string.
Proof.
  intros d Hv Hfin H0. split; [|split].
  - intros Hlt. unfold formatDistance. rewrite Hlt.
    now rewrite FormatFacts.round_text.
  - intros Hge Hkm. unfold formatDistance. rewrite Hge.
    destruct d as [s| | |[] m e]; try discriminate.
    rewrite FormatFacts.toFixed_text; [reflexivity| |exact Hkm].
    pose proof (FormatFacts.km_finite _ _ _ Hv) as Hf.
    destruct (FormatFacts.km_sign m e) as [-> |[Hinf|(m' & e' & ->)]]; eauto.
    rewrite Hinf in Hf. discriminate.
  - repeat split; vm_compute; reflexivity.
Qed.

Lemma formatDistance_rounds_the_binary64_value_witness :
  formatDistance (of_Z 999) = Some "999 m"%string /\
  formatDistance (of_Z 5432) = Some "5.4 km"%string.
Proof.
  assert ((to_Q (of_Z 5432 / of_Z 1000)%js < inject_Z (10 ^ 21))%Q) as Hkm
    by (vm_compute; reflexivity).
  split.
  - destruct (formatDistance_rounds_the_binary64_value (of_Z 999)
                eq_refl eq_refl eq_refl) as (H & _).
    rewrite (H eq_refl). vm_compute. reflexivity.
  - destruct (formatDistance_rounds_the_binary64_value (of_Z 5432)
                eq_refl eq_refl eq_refl) as (_ & H & _).
    rewrite (H eq_refl Hkm). vm_compute. reflexivity.
Defined.

(** C5, as stated, fails: 1150 meters are 1.15 km, which rounds half away
    from zero to 1.2, and [formatDistance] answers "1.1 km", because the
    binary64 quotient 1150 / 1000 is below 1.15. *)
Lemma formatDistance_1150_is_not_half_away :
  (to_Q (of_Z 1150) == 1150)%Q /\
  Spec.formatDistance (to_Q (of_Z 1150)) = "1.2 km"%string /\
  formatDistance (of_Z 1150) = Some "1.1 km"%string /\
  (to_Q (of_Z 1150 / of_Z 1000)%js < 115 # 100)%Q.
Proof.
  repeat split; vm_compute; reflexivity.
Qed.

(** * Further properties of the code *)

(** ** The rows a proximity query returns *)

Module SelectionFacts.

Import Pg PgFacts.

Lemma StronglySorted_app_inv {A} (R : A -> A -> Prop) l1 l2 :
  StronglySorted R (l1 ++ l2) ->
  forall x y, In x l1 -> In y l2 -> R x y.
Proof.
  induction l1 as [|a l1 IH]; cbn; [easy|].
  intros Hs x y [<-|Hx] Hy; inversion Hs as [|? ? Hl Ha]; subst.
  - rewrite Forall_forall in Ha. apply Ha, in_or_app. now right.
  - now apply IH.
Qed.

Section Pipeline.
Context {A B : Type} (key : B -> number) (select : A -> B) (where_ : A -> bool).

Let selected (rows : list A) : list B :=
  order_by_asc key (map select (filter where_ rows)).

Lemma query_length n rows results :
  limit n (selected rows) = Ok results ->
  Z.of_nat (List.length results)
  = Z.min n (Z.of_nat (List.length (filter where_ rows))).
Proof.
  intros H. apply limit_inv in H as [Hn ->]. rewrite length_firstn.
  unfold selected.
  rewrite (Permutation_length (order_by_asc_Permutation key _)), length_map.
  lia.
Qed.

Lemma query_nearest n rows results :
  limit n (selected rows) = Ok results ->
  forall b, In b rows -> where_ b = true ->
    In (select b) results \/
    forall x, In x results -> float8_le (key x) (key (select b)) = true.
Proof.
  intros H b Hb Hw. apply limit_inv in H as [Hn ->].
  assert (In (select b) (selected rows)) as Hin
    by (apply QueryFacts.selected_In; eauto).
  pose proof (order_by_asc_StronglySorted key (map select (filter where_ rows)))
    as Hs.
  fold (selected rows) in Hs.
  rewrite <- (firstn_skipn (Z.to_nat n) (selected rows)) in Hin, Hs.
  apply in_app_or in Hin as [Hin|Hin]; [now left|right].
  intros x Hx. exact (StronglySorted_app_inv _ _ _ Hs x (select b) Hx Hin).
Qed.

Lemma query_prefix n m rows results :
  0 <= n <= m ->
  limit m (selected rows) = Ok results ->
  limit n (selected rows) = Ok (firstn (Z.to_nat n) results).
Proof.
  intros Hnm H. apply limit_inv in H as [Hm ->].
  rewrite limit_Ok by lia. rewrite firstn_firstn. do 2 f_equal. lia.
Qed.
End Pipeline.

End SelectionFacts.

(** Every restaurant [findRestaurantsNearby] returns is a row of the
    "restaurants" table, with the row's own coordinates and its distance to
    the center, and its rating is at least [minRating] in the order of
    float8, where NaN is the greatest value: when the rating is a number,
    [minRating <= rating] holds. *)
Theorem findRestaurantsNearby_returns_rated_rows :
  forall ST_DistanceSphere prisma point radiusKm minRating limit results,
    findRestaurantsNearby ST_DistanceSphere prisma point
      radiusKm minRating limit = Ok results ->
    Forall
      (fun x =>
         (exists r, In r (restaurants prisma) /\
            RestaurantWithDistance.id x = Restaurant.id r /\
            RestaurantWithDistance.name x = Restaurant.name r /\
            RestaurantWithDistance.rating x = Restaurant.rating r /\
            RestaurantWithDistance.latitude x = latitude (Restaurant.location r) /\
            RestaurantWithDistance.longitude x = longitude (Restaurant.location r) /\
            RestaurantWithDistance.distance x =
              ST_DistanceSphere (Restaurant.location r) point) /\
         Pg.float8_ge (RestaurantWithDistance.rating x)
                      (default (of_Z 4) minRating) = true /\
         (isNaN (RestaurantWithDistance.rating x) = false ->
          (default (of_Z 4) minRating <= RestaurantWithDistance.rating x)%js = true))
      results.
Proof.
  intros ST prisma point radiusKm minRating limit results H.
  unfold findRestaurantsNearby in H. rewrite QueryFacts.ST_MakePoint_eta in H.
  apply QueryFacts.query_inv in H as (_ & _ & _ & Hall).
  eapply Forall_impl; [|exact Hall]. cbn beta.
  intros x (r & Hr & Hw & ->). apply andb_true_iff in Hw as [Hrat _].
  cbn [RestaurantWithDistance.id RestaurantWithDistance.name
       RestaurantWithDistance.rating RestaurantWithDistance.latitude
       RestaurantWithDistance.longitude RestaurantWithDistance.distance].
  split; [exists r; repeat split; assumption|]. split; [exact Hrat|].
  intros Hnan. now apply PgFacts.float8_le_leb.
Qed.

Lemma findRestaurantsNearby_returns_rated_rows_witness :
  exists results,
    findRestaurantsNearby Examples.flat_distance Examples.db Examples.at_KSFO
      (Some (of_Z 200)) None None = Ok results /\
    map RestaurantWithDistance.name results
      = ["The Flying Burger"%string; "Runway Diner"%string] /\
    Forall
      (fun x =>
         (exists r, In r (restaurants Examples.db) /\
            RestaurantWithDistance.id x = Restaurant.id r /\
            RestaurantWithDistance.name x = Restaurant.name r /\
            RestaurantWithDistance.rating x = Restaurant.rating r /\
            RestaurantWithDistance.latitude x = latitude (Restaurant.location r) /\
            RestaurantWithDistance.longitude x = longitude (Restaurant.location r) /\
            RestaurantWithDistance.distance x =
              Examples.flat_distance (Restaurant.location r) Examples.at_KSFO) /\
         Pg.float8_ge (RestaurantWithDistance.rating x)
                      (default (of_Z 4) None) = true /\
         (isNaN (RestaurantWithDistance.rating x) = false ->
          (default (of_Z 4) None <= RestaurantWithDistance.rating x)%js = true))
      results.
Proof.
  eexists. split; [vm_compute; reflexivity|]. split; [reflexivity|].
  apply (findRestaurantsNearby_returns_rated_rows
           Examples.flat_distance Examples.db Examples.at_KSFO
           (Some (of_Z 200)) None None).
  vm_compute. reflexivity.
Defined.

(** The number of rows a proximity query returns is the smaller of the
    limit and the number of rows of the table that satisfy its WHERE clause:
    no matching row is left out unless the limit is reached. *)
Theorem nearby_result_count :
  forall ST_DistanceSphere prisma point radiusKm minRating limit,
    (forall results,
       findRestaurantsNearby ST_DistanceSphere prisma point
         (Some radiusKm) (Some minRating) (Some limit) = Ok results ->
       Z.of_nat (List.length results) =
       Z.min limit
         (Z.of_nat (List.length
            (filter (fun r =>
                       Pg.float8_ge (Restaurant.rating r) minRating &&
                       Pg.float8_le (ST_DistanceSphere (Restaurant.location r) point)
                                    (radiusKm * of_Z 1000)%js)
                    (restaurants prisma))))) /\
    (forall results,
       findAirportsNearby ST_DistanceSphere prisma point
         (Some radiusKm) (Some limit) = Ok results ->
       Z.of_nat (List.length results) =
       Z.min limit
         (Z.of_nat (List.length
            (filter (fun a =>
                       Pg.float8_le (ST_DistanceSphere (Airport.location a) point)
                                    (radiusKm * of_Z 1000)%js)
                    (airports prisma))))).
Proof.
  intros ST prisma point radiusKm minRating limit. split; intros results H.
  - unfold findRestaurantsNearby in H. rewrite QueryFacts.ST_MakePoint_eta in H.
    cbn [default] in H. now apply SelectionFacts.query_length in H.
  - unfold findAirportsNearby in H. rewrite QueryFacts.ST_MakePoint_eta in H.
    cbn [default] in H. now apply SelectionFacts.query_length in H.
Qed.

(** The rows a proximity query returns are the nearest ones: a row of the
    table that satisfies the WHERE clause is either returned, or at least as
    far from the center as every row that is. *)
Theorem nearby_results_are_the_nearest :
  forall ST_DistanceSphere prisma point radiusKm minRating limit,
    (forall results,
       findRestaurantsNearby ST_DistanceSphere prisma point
         (Some radiusKm) (Some minRating) (Some limit) = Ok results ->
       forall r, In r (restaurants prisma) ->
         Pg.float8_ge (Restaurant.rating r) minRating = true ->
         Pg.float8_le (ST_DistanceSphere (Restaurant.location r) point)
                      (radiusKm * of_Z 1000)%js = true ->
         (exists x, In x results /\
            RestaurantWithDistance.id x = Restaurant.id r /\
            RestaurantWithDistance.distance x =
              ST_DistanceSphere (Restaurant.location r) point) \/
         (forall x, In x results ->
            Pg.float8_le (RestaurantWithDistance.distance x)
                         (ST_DistanceSphere (Restaurant.location r) point) = true)) /\
    (forall results,
       findAirportsNearby ST_DistanceSphere prisma point
         (Some radiusKm) (Some limit) = Ok results ->
       forall a, In a (airports prisma) ->
         Pg.float8_le (ST_DistanceSphere (Airport.location a) point)
                      (radiusKm * of_Z 1000)%js = true ->
         (exists x, In x results /\
            AirportWithDistance.id x = Airport.id a /\
            AirportWithDistance.distance x =
              ST_DistanceSphere (Airport.location a) point) \/
         (forall x, In x results ->
            Pg.float8_le (AirportWithDistance.distance x)
                         (ST_DistanceSphere (Airport.location a) point) = true)).
Proof.
  intros ST prisma point radiusKm minRating limit. split; intros results H.
  - intros r Hr Hrat Hd.
    unfold findRestaurantsNearby in H. rewrite QueryFacts.ST_MakePoint_eta in H.
    cbn [default] in H.
    destruct (SelectionFacts.query_nearest _ _ _ _ _ _ H r Hr) as [Hin|Hfar].
    + cbn beta. now rewrite Hrat, Hd.
    + left. eexists. split; [exact Hin|]. split; reflexivity.
    + right. exact Hfar.
  - intros a Ha Hd.
    unfold findAirportsNearby in H. rewrite QueryFacts.ST_MakePoint_eta in H.
    cbn [default] in H.
    destruct (SelectionFacts.query_nearest _ _ _ _ _ _ H a Ha) as [Hin|Hfar].
    + exact Hd.
    + left. eexists. split; [exact Hin|]. split; reflexivity.
    + right. exact Hfar.
Qed.

(** Raising the limit of a proximity query only appends rows: when no two
    rows of the answer for a limit [m] are at the same distance, so that
    their order is the only one [ORDER BY distance] allows, the answer for a
    smaller limit [n] is its first [n] rows. *)
Theorem nearby_results_prefix :
  forall ST_DistanceSphere prisma point radiusKm minRating n m,
    0 <= n <= m ->
    (forall results,
       findRestaurantsNearby ST_DistanceSphere prisma point
         radiusKm minRating (Some m) = Ok results ->
       StronglySorted
         (fun a b => Pg.float8_le (RestaurantWithDistance.distance b)
                                  (RestaurantWithDistance.distance a) = false)
         results ->
       findRestaurantsNearby ST_DistanceSphere prisma point
         radiusKm minRating (Some n) = Ok (firstn (Z.to_nat n) results)) /\
    (forall results,
       findAirportsNearby ST_DistanceSphere prisma point
         radiusKm (Some m) = Ok results ->
       StronglySorted
         (fun a b => Pg.float8_le (AirportWithDistance.distance b)
                                  (AirportWithDistance.distance a) = false)
         results ->
       findAirportsNearby ST_DistanceSphere prisma point
         radiusKm (Some n) = Ok (firstn (Z.to_nat n) results)).
Proof.
  intros ST prisma point radiusKm minRating n m Hnm.
  split; intros results H _.
  - unfold findRestaurantsNearby in *. cbn [default] in *.
    now apply (SelectionFacts.query_prefix _ _ _ n m).
  - unfold findAirportsNearby in *. cbn [default] in *.
    now apply (SelectionFacts.query_prefix _ _ _ n m).
Qed.

Lemma nearby_results_prefix_witness :
  findRestaurantsNearby Examples.flat_distance Examples.db Examples.at_KSFO
    (Some (of_Z 200)) None (Some 1)
  = Ok (firstn 1
          (match findRestaurantsNearby Examples.flat_distance Examples.db
                   Examples.at_KSFO (Some (of_Z 200)) None (Some 2) with
           | Ok results => results
           | Err _ => []
           end)) /\
  Z.of_nat (List.length
              (match findRestaurantsNearby Examples.flat_distance Examples.db
                       Examples.at_KSFO (Some (of_Z 200)) None (Some 2) with
               | Ok results => results
               | Err _ => []
               end)) = 2.
Proof.
  split; [|vm_compute; reflexivity].
  destruct (nearby_results_prefix Examples.flat_distance Examples.db
              Examples.at_KSFO (Some (of_Z 200)) None 1 2 ltac:(lia)) as [H _].
  destruct (findRestaurantsNearby Examples.flat_distance Examples.db
              Examples.at_KSFO (Some (of_Z 200)) None (Some 2)) as [results|e] eqn:E.
  - apply (H results eq_refl). vm_compute in E. injection E as <-.
    repeat constructor.
  - vm_compute in E. discriminate E.
Defined.

(** ** Primary keys *)

Module KeyFacts.

Import Pg PgFacts.

Lemma NoDup_map_filter {A K} (id : A -> K) (f : A -> bool) rows :
  NoDup (map id rows) -> NoDup (map id (filter f rows)).
Proof.
  induction rows as [|a rows IH]; cbn; [constructor|].
  intros H. inversion H as [|? ? Ha Hrows]; subst.
  destruct (f a); cbn; [|now apply IH].
  constructor; [|now apply IH].
  intros Hin. apply Ha. apply in_map_iff in Hin as (x & Hx & Hf).
  apply filter_In in Hf as [Hf _]. apply in_map_iff. now exists x.
Qed.

Lemma NoDup_firstn {K} n (l : list K) : NoDup l -> NoDup (firstn n l).
Proof.
  intros H. rewrite <- (firstn_skipn n l) in H.
  now apply NoDup_app_remove_r in H.
Qed.

Section Pipeline.
Context {A B K : Type} (key : B -> number) (select : A -> B) (where_ : A -> bool).
Context (idA : A -> K) (idB : B -> K).
Hypothesis id_select : forall a, idB (select a) = idA a.

Lemma query_NoDup n rows results :
  NoDup (map idA rows) ->
  limit n (order_by_asc key (map select (filter where_ rows))) = Ok results ->
  NoDup (map idB results).
Proof.
  intros Hrows H. apply limit_inv in H as [_ ->].
  rewrite <- firstn_map. apply NoDup_firstn.
  eapply Permutation_NoDup.
  - apply Permutation_sym, Permutation_map, order_by_asc_Permutation.
  - rewrite map_map. rewrite (map_ext _ idA) by exact id_select.
    now apply NoDup_map_filter.
Qed.
End Pipeline.

End KeyFacts.

(** The proximity queries keep the primary keys apart: when no two rows of
    the table have the same id, no two rows of the answer have. *)
Theorem nearby_results_have_distinct_ids :
  forall ST_DistanceSphere prisma point,
    (NoDup (map Restaurant.id (restaurants prisma)) ->
     forall radiusKm minRating limit results,
       findRestaurantsNearby ST_DistanceSphere prisma point
         radiusKm minRating limit = Ok results ->
       NoDup (map RestaurantWithDistance.id results)) /\
    (NoDup (map Airport.id (airports prisma)) ->
     forall radiusKm limit results,
       findAirportsNearby ST_DistanceSphere prisma point
         radiusKm limit = Ok results ->
       NoDup (map AirportWithDistance.id results)).
Proof.
  intros ST prisma point. split.
  - intros Hkeys radiusKm minRating limit results H.
    unfold findRestaurantsNearby in H.
    eapply (KeyFacts.query_NoDup _ _ _ Restaurant.id RestaurantWithDistance.id);
      [|exact Hkeys|exact H].
    reflexivity.
  - intros Hkeys radiusKm limit results H.
    unfold findAirportsNearby in H.
    eapply (KeyFacts.query_NoDup _ _ _ Airport.id AirportWithDistance.id);
      [|exact Hkeys|exact H].
    reflexivity.
Qed.

(** ** Airport codes, whatever their case *)

(** [findRestaurantsNearAirport] reads the code without regard to the case
    of its ASCII letters: two codes that differ in case only give the same
    restaurants, and when the lookup fails each call reports the code as it
    was given. *)
Theorem findRestaurantsNearAirport_ignores_case :
  forall ST_DistanceSphere prisma code1 code2 radiusKm minRating,
    Spec.same_code code1 code2 ->
    match findRestaurantsNearAirport ST_DistanceSphere prisma code1
            radiusKm minRating with
    | Ok results =>
        findRestaurantsNearAirport ST_DistanceSphere prisma code2
          radiusKm minRating = Ok results
    | Err e =>
        e = Error ("Airport not found: " ++ code1) /\
        findRestaurantsNearAirport ST_DistanceSphere prisma code2
          radiusKm minRating = Err (Error ("Airport not found: " ++ code2))
    end.
Proof.
  intros ST prisma code1 code2 radiusKm minRating Hsame.
  assert (Pg.UPPER code1 = Pg.UPPER code2) as HU.
  { apply String.eqb_eq. now apply CodeFacts.UPPER_eqb_same_code. }
  unfold findRestaurantsNearAirport. rewrite HU.
  rewrite PgFacts.limit_Ok by lia.
  destruct (firstn _ _) as [|airportLocation l].
  - now split.
  - destruct (findRestaurantsNearby _ _ _ _ _ _) as [results|e] eqn:E;
      [reflexivity|].
    unfold findRestaurantsNearby in E. cbn [default] in E.
    rewrite PgFacts.limit_Ok in E by lia. discriminate E.
Qed.

Lemma findRestaurantsNearAirport_ignores_case_witness :
  match findRestaurantsNearAirport Examples.flat_distance Examples.db "ksfo"
          None None with
  | Ok results =>
      findRestaurantsNearAirport Examples.flat_distance Examples.db "KSFO"
        None None = Ok results
  | Err e =>
      e = Error ("Airport not found: " ++ "ksfo") /\
      findRestaurantsNearAirport Examples.flat_distance Examples.db "KSFO"
        None None = Err (Error ("Airport not found: " ++ "KSFO"))
  end.
Proof.
  apply (findRestaurantsNearAirport_ignores_case
           Examples.flat_distance Examples.db "ksfo" "KSFO" None None).
  reflexivity.
Defined.

(** ** The switch from meters to kilometers *)

Module BoundaryFacts.

Lemma leb_positive m e m' e' :
  (S754_finite false m e <= S754_finite false m' e')%js = true ->
  e < e' \/ (e = e' /\ Zpos m <= Zpos m').
Proof.
  unfold leb, SFleb, SFcompare. rewrite Pos.compare_cont_spec.
  unfold Pos.switch_Eq.
  destruct (Z.compare_spec e e'); try discriminate; [|lia].
  destruct (Pos.compare_spec m m') as [Hm|Hm|]; try discriminate;
    intros _; right; (split; [assumption|]).
  - subst. lia.
  - apply Pos2Z.pos_lt_pos in Hm. lia.
Qed.

(** The numbers from 999.5 up to 1000, 1000 apart: exponent -43 and a
    mantissa from 1999 * 2^42 up to 2000 * 2^42. *)
Lemma just_below_1000 d :
  (dyadic 1999 (-1) <= d)%js = true -> (d < of_Z 1000)%js = true ->
  exists m, d = S754_finite false m (-43) /\
            1999 * 2 ^ 42 <= Zpos m < 2000 * 2 ^ 42.
Proof.
  change (dyadic 1999 (-1)) with (S754_finite false 8791694975696896 (-43)).
  change (of_Z 1000) with (S754_finite false 8796093022208000 (-43)).
  intros Hlo Hhi.
  destruct d as [s|[]| |[] m e]; try discriminate.
  apply leb_positive in Hlo. apply FormatFacts.ltb_positive in Hhi.
  assert (e = -43) as -> by lia.
  exists m. split; [reflexivity|].
  change (1999 * 2 ^ 42) with 8791694975696896.
  change (2000 * 2 ^ 42) with 8796093022208000. lia.
Qed.

Lemma round_just_below_1000 m :
  1999 * 2 ^ 42 <= Zpos m < 2000 * 2 ^ 42 ->
  JsMath.round (S754_finite false m (-43)) = of_Z 1000.
Proof.
  intros Hm. unfold JsMath.round.
  change (0 <=? -43) with false. cbv iota.
  change (- -43 - 1) with 42. change (- -43) with 43.
  cbn [cond_Zopp].
  rewrite Z.shiftr_div_pow2, Z.shiftl_mul_pow2 by lia.
  assert ((Zpos m + 1 * 2 ^ 42) / 2 ^ 43 = 1000) as ->; [|reflexivity].
  symmetry. apply Z.div_unique with (r := Zpos m + 1 * 2 ^ 42 - 2 ^ 43 * 1000).
  - left. change (2 ^ 43) with (2 * 2 ^ 42). lia.
  - lia.
Qed.

End BoundaryFacts.

(** A distance from 999.5 up to 1000 meters, 1000 apart, is below the
    switch to kilometers and rounds to 1000: [formatDistance] prints
    "1000 m" for it, though it prints 1000 itself as "1.0 km". *)
Theorem formatDistance_just_below_1000 :
  forall d,
    (dyadic 1999 (-1) <= d)%js = true -> (d < of_Z 1000)%js = true ->
    formatDistance d = Some "1000 m"%string /\
    formatDistance (of_Z 1000) = Some "1.0 km"%string.
Proof.
  intros d Hlo Hhi. split; [|vm_compute; reflexivity].
  unfold formatDistance. rewrite Hhi.
  destruct (BoundaryFacts.just_below_1000 d Hlo Hhi) as (m & -> & Hm).
  rewrite (BoundaryFacts.round_just_below_1000 m Hm).
  vm_compute. reflexivity.
Qed.

Lemma formatDistance_just_below_1000_witness :
  (to_Q (dyadic 1999 (-1)) == 1999 # 2)%Q /\
  formatDistance (dyadic 1999 (-1)) = Some "1000 m"%string /\
  formatDistance (of_Z 1000) = Some "1.0 km"%string.
Proof.
  split; [vm_compute; reflexivity|].
  apply (formatDistance_just_below_1000 (dyadic 1999 (-1))); reflexivity.
Defined.

(** ** Coordinates that are not numbers *)

(** [calculateHaversineDistance] checks nothing: when a coordinate of
    either point is NaN the distance is NaN, on every platform whose Math.sin
    and Math.atan2 return NaN for NaN. *)
Theorem calculateHaversineDistance_NaN_coordinate :
  forall Math point1 point2,
    ES.sin_NaN Math -> ES.atan2_NaN Math ->
    isNaN (latitude point1) || isNaN (longitude point1) ||
    isNaN (latitude point2) || isNaN (longitude point2) = true ->
    calculateHaversineDistance Math point1 point2 = NaN.
Proof.
  intros Math [lat1 lon1] [lat2 lon2] Hsin Hatan H.
  cbn [latitude longitude] in H.
  assert (forall x, (x - NaN)%js = NaN) as sub_r by (now intros []).
  assert (forall x, (x * NaN)%js = NaN) as mul_r by (now intros []).
  assert (forall x, (x + NaN)%js = NaN) as add_r by (now intros []).
  assert (toRadians NaN = NaN) as rad by reflexivity.
  assert ((NaN / of_Z 2)%js = NaN) as half by reflexivity.
  assert (forall a, a = NaN ->
            (of_Z 6371 * (of_Z 2 * atan2 Math (sqrt a) (sqrt (of_Z 1 - a))))%js
            = NaN) as Hlast.
  { intros a ->. change (sqrt NaN) with NaN. now rewrite Hatan. }
  unfold calculateHaversineDistance. cbn [latitude longitude].
  apply Hlast.
  assert (isNaN lat1 || isNaN lat2 = true \/ isNaN lon1 || isNaN lon2 = true)
    as [Hlat|Hlon]
    by (destruct (isNaN lat1), (isNaN lat2), (isNaN lon1), (isNaN lon2); auto).
  - assert ((lat2 - lat1)%js = NaN) as ->
      by (destruct lat1, lat2; try discriminate; reflexivity).
    rewrite rad, half, Hsin. reflexivity.
  - assert ((lon2 - lon1)%js = NaN) as ->
      by (destruct lon1, lon2; try discriminate; reflexivity).
    rewrite rad, half, Hsin, !mul_r. apply add_r.
Qed.

Lemma calculateHaversineDistance_NaN_coordinate_witness :
  calculateHaversineDistance Examples.Math
    {| latitude := of_Z 37; longitude := NaN |} Examples.at_KSFO = NaN.
Proof.
  apply (calculateHaversineDistance_NaN_coordinate Examples.Math
           {| latitude := of_Z 37; longitude := NaN |} Examples.at_KSFO).
  - reflexivity.
  - exact ExampleFacts.Math_atan2_NaN.
  - reflexivity.
Defined.

(** ** The sign of the distance *)

Module SignFacts.

Import F64Facts ES.

Lemma sign_clear_not_negative x : sign_clear x = true -> (x < zero)%js = false.
Proof.
  destruct x as [[]|[]| |[] m e]; try discriminate; reflexivity.
Qed.

Lemma round_aux_sign_clear m e l :
  sign_clear (binary_round_aux prec emax false m e l) = true.
Proof.
  unfold binary_round_aux.
  destruct (shr_fexp prec emax m e l) as [mrs' e'].
  destruct (shr_fexp prec emax _ e' loc_Exact) as [mrs'' e''].
  destruct (shr_m mrs''); [reflexivity| |reflexivity].
  destruct (e'' <=? emax - prec); reflexivity.
Qed.

Lemma mul_self_sign_clear x : sign_clear (x * x)%js = true.
Proof.
  destruct x as [s|s| |s m e]; unfold mul; cbn [SFmul];
    rewrite ?xorb_nilpotent; try reflexivity.
  apply round_aux_sign_clear.
Qed.

Lemma sqrt_sign_clear a : a <> S754_zero true -> sign_clear (sqrt a) = true.
Proof.
  destruct a as [[]|[]| |[] m e]; intros Ha; try reflexivity; [congruence|].
  unfold sqrt. cbn [SFsqrt].
  destruct (SFsqrt_core_binary prec emax (Z.pos m) e) as [[mz ez] lz].
  apply round_aux_sign_clear.
Qed.

(** A product by a positive number is negative only if the other factor
    is. *)
Lemma mul_positive_not_negative m e t :
  (t < zero)%js = false -> (S754_finite false m e * t < zero)%js = false.
Proof.
  destruct t as [[]|[]| |[] m' e']; try discriminate; try reflexivity.
  intros _. apply sign_clear_not_negative.
  unfold mul. cbn [SFmul xorb]. apply round_aux_sign_clear.
Qed.

(** The exponent a rounding settles on is at least -1074. *)
Lemma round_aux_above_emin s m e l :
  above_emin (binary_round_aux prec emax s m e l).
Proof.
  unfold binary_round_aux.
  destruct (shr_fexp prec emax m e l) as [mrs1 e1].
  pose proof (shr_fexp_spec
                (round_nearest_even (shr_m mrs1) (loc_of_shr_record mrs1))
                e1 loc_Exact) as [He3 _].
  destruct (shr_fexp prec emax _ e1 loc_Exact) as [mrs3 e3]. cbn [snd] in He3.
  destruct (shr_m mrs3); try exact I.
  destruct (e3 <=? emax - prec); [|exact I].
  unfold above_emin. unfold fexp, SpecFloat.emin, prec, emax in He3.
  std_Z. lia.
Qed.

Lemma mul_above_emin x y : above_emin (x * y)%js.
Proof.
  destruct x as [s|s| |s m e], y as [s'|s'| |s' m' e']; try exact I.
  apply round_aux_above_emin.
Qed.

Lemma round_nearest_even_ge m l : m <= round_nearest_even m l.
Proof.
  destruct l as [|[]]; cbn; try lia. destruct (Z.even m); lia.
Qed.

Lemma Zdigits2_positive m : 0 < m -> 1 <= Zdigits2 m.
Proof.
  intros Hm. rewrite Zdigits2_log2 by exact Hm.
  pose proof (Z.log2_nonneg m). lia.
Qed.

Lemma positive_Zdigits2 m : 0 <= m -> 1 <= Zdigits2 m -> 0 < m.
Proof.
  intros Hm Hd. destruct m; [cbn in Hd| |]; lia.
Qed.

(** Above 2^-1074 a shift to the exponent of the format leaves a mantissa
    that is not zero. *)
Lemma shr_fexp_positive m e l :
  0 < m -> -1074 <= e ->
  0 < shr_m (fst (shr_fexp prec emax m e l)) /\
  -1074 <= snd (shr_fexp prec emax m e l).
Proof.
  intros Hm He.
  pose proof (shr_fexp_spec m e l) as [He1 Hd1].
  pose proof (shr_fexp_nonneg m e l ltac:(lia)) as Hn1.
  pose proof (Zdigits2_positive m Hm) as Hd.
  destruct (shr_fexp prec emax m e l) as [mrs1 e1]. cbn [fst snd] in *.
  unfold fexp, SpecFloat.emin, prec, emax in He1. std_Z.
  split; [|lia]. apply positive_Zdigits2; [exact Hn1|]. lia.
Qed.

(** A number that is not zero and not below 2^-1074 does not round to
    zero. *)
Lemma round_aux_not_zero s m e l s' :
  0 < m -> -1074 <= e -> binary_round_aux prec emax s m e l <> S754_zero s'.
Proof.
  intros Hm He. unfold binary_round_aux.
  pose proof (shr_fexp_positive m e l Hm He) as [Hm1 He1].
  destruct (shr_fexp prec emax m e l) as [mrs1 e1]. cbn [fst snd] in Hm1, He1.
  pose proof (round_nearest_even_ge (shr_m mrs1) (loc_of_shr_record mrs1)) as Hm2.
  pose proof (shr_fexp_positive
                (round_nearest_even (shr_m mrs1) (loc_of_shr_record mrs1))
                e1 loc_Exact ltac:(lia) He1) as [Hm3 _].
  destruct (shr_fexp prec emax _ e1 loc_Exact) as [mrs3 e3]. cbn [fst] in Hm3.
  destruct (shr_m mrs3); [lia| |discriminate].
  destruct (e3 <=? emax - prec); discriminate.
Qed.

Lemma binary_round_not_zero s m e s' :
  -1074 <= e -> binary_round prec emax s m e <> S754_zero s'.
Proof.
  intros He. unfold binary_round.
  assert (-1074 <= fexp prec emax (Z.pos (digits2_pos m) + e)) as Hf
    by (unfold fexp, SpecFloat.emin, prec, emax; std_Z; lia).
  set (e' := fexp prec emax (Z.pos (digits2_pos m) + e)) in *.
  unfold shl_align. std_Z.
  destruct (e' - e) as [|d|d]; apply round_aux_not_zero; lia.
Qed.

(** A sum whose first term has no sign is not the negative zero. *)
Lemma add_not_negative_zero P Q :
  sign_clear P = true -> above_emin P -> above_emin Q ->
  (P + Q)%js <> S754_zero true.
Proof.
  destruct P as [[]|[]| |[] m e], Q as [[]|[]| |s' m' e'];
    try discriminate; cbn [above_emin]; intros _ He He';
    unfold add; cbn [SFadd]; try discriminate.
  std_Z.
  set (M := _ + _).
  destruct M as [|M|M]; cbn [binary_normalize]; [discriminate| |];
    apply binary_round_not_zero; lia.
Qed.

End SignFacts.

(** The distance is never negative: [calculateHaversineDistance] returns
    NaN, a zero or a positive number, for all points and whatever Math.sin
    and Math.cos return, on every platform whose Math.atan2 is not negative
    when the sign of its first argument is not set. *)
Theorem calculateHaversineDistance_never_negative :
  forall Math point1 point2,
    ES.atan2_upper_half Math ->
    (calculateHaversineDistance Math point1 point2 < zero)%js = false.
Proof.
  intros Math [lat1 lon1] [lat2 lon2] Hatan.
  unfold calculateHaversineDistance. cbn [latitude longitude].
  set (a := (_ + _)%js).
  assert (a <> S754_zero true) as Ha.
  { apply SignFacts.add_not_negative_zero.
    - apply SignFacts.mul_self_sign_clear.
    - apply SignFacts.mul_above_emin.
    - apply SignFacts.mul_above_emin. }
  pose proof (Hatan (sqrt a) (sqrt (of_Z 1 - a)%js)
                (SignFacts.sqrt_sign_clear a Ha)) as Ht.
  change (of_Z 6371) with (S754_finite false 7004988580560896 (-40)).
  change (of_Z 2) with (S754_finite false 4503599627370496 (-51)).
  now do 2 apply SignFacts.mul_positive_not_negative.
Qed.

Lemma calculateHaversineDistance_never_negative_witness :
  (calculateHaversineDistance RouteExamples.Math Examples.at_KSFO
     Examples.north_12 < zero)%js = false.
Proof.
  apply (calculateHaversineDistance_never_negative RouteExamples.Math
           Examples.at_KSFO Examples.north_12).
  intros y x Hy. cbn [atan2 RouteExamples.Math].
  unfold RouteExamples.example_atan2.
  destruct (isNaN y || isNaN x); [reflexivity|].
  apply SignFacts.sign_clear_not_negative.
  destruct y as [[]|[]| |[] m e]; try discriminate Hy;
    destruct x as [s'|s'| |s' m' e']; try reflexivity.
  unfold div. cbn [SFdiv SFabs xorb].
  destruct (SFdiv_core_binary _ _ _ _ _ _) as [[mz ez] lz].
  apply SignFacts.round_aux_sign_clear.
Defined.

(** ** The route handlers *)

Module RouteFacts.

(** Between two numbers, [y <= x] holds when [x < y] does not. *)
Lemma not_ltb_leb x y :
  isNaN x = false -> isNaN y = false -> (x < y)%js = false -> (y <= x)%js = true.
Proof.
  unfold ltb, leb, SFltb, SFleb.
  destruct x as [s|s| |s m e], y as [s'|s'| |s' m' e'];
    try discriminate; intros _ _; cbn [SFcompare];
    try (destruct s; try destruct s'; cbn; congruence);
    try (destruct s'; cbn; congruence).
  rewrite (Z.compare_antisym e e').
  pose proof (Pos.compare_cont_antisym m m' Eq) as Hm.
  cbn [CompOpp] in Hm. rewrite <- Hm.
  destruct s, s', (e ?= e'), (Pos.compare_cont Eq m m'); cbn; congruence.
Qed.

Lemma not_leb_ltb x y :
  isNaN x = false -> isNaN y = false -> (x <= y)%js = false -> (y < x)%js = true.
Proof.
  unfold ltb, leb, SFltb, SFleb.
  destruct x as [s|s| |s m e], y as [s'|s'| |s' m' e'];
    try discriminate; intros _ _; cbn [SFcompare];
    try (destruct s; try destruct s'; cbn; congruence);
    try (destruct s'; cbn; congruence).
  rewrite (Z.compare_antisym e e').
  pose proof (Pos.compare_cont_antisym m m' Eq) as Hm.
  cbn [CompOpp] in Hm. rewrite <- Hm.
  destruct s, s', (e ?= e'), (Pos.compare_cont Eq m m'); cbn; congruence.
Qed.

(** A request turned down before the database is consulted. *)
Ltac rejected :=
  cbn [Response.status Response.json default orb];
  split; [split; reflexivity|];
  split; [intros _ ? ?; reflexivity|];
  split; [now left|intros H; discriminate H].

End RouteFacts.

(** ** The route /api/restaurants/nearby *)

(** The loader of /api/restaurants/nearby answers 400 exactly when the
    latitude or the longitude does not parse, or lies outside [-90, 90] or
    [-180, 180], or the distance is at most 0 or above 500; the answer then
    does not depend on the database. Every other request is answered 200 or
    500; a distance that does not parse is among them, since NaN passes both
    comparisons. *)
Theorem restaurants_loader_validation :
  forall ST_DistanceSphere global other_limit prisma searchParams,
    let lat := parseFloat global
                 (or_else (URLSearchParams.get searchParams "lat") EmptyString) in
    let lng := parseFloat global
                 (or_else (URLSearchParams.get searchParams "lng") EmptyString) in
    let distance := parseFloat global
                 (or_else (URLSearchParams.get searchParams "distance") "5.0") in
    let response :=
      ApiRestaurantsNearby.loader ST_DistanceSphere global other_limit
        prisma searchParams in
    (Response.status response = 400 <->
     (isNaN lat || isNaN lng) ||
     ((lat < of_Z (-90))%js || (of_Z 90 < lat)%js) ||
     ((lng < of_Z (-180))%js || (of_Z 180 < lng)%js) ||
     ((distance <= of_Z 0)%js || (of_Z 500 < distance)%js) = true) /\
    (Response.status response = 400 ->
     forall other_limit' prisma',
       ApiRestaurantsNearby.loader ST_DistanceSphere global other_limit'
         prisma' searchParams = response) /\
    (Response.status response = 400 \/ Response.status response = 200 \/
     Response.status response = 500) /\
    ((isNaN lat || isNaN lng) ||
     ((lat < of_Z (-90))%js || (of_Z 90 < lat)%js) ||
     ((lng < of_Z (-180))%js || (of_Z 180 < lng)%js) = false ->
     isNaN distance = true -> Response.status response <> 400).
Proof.
  intros ST G other prisma params lat lng distance response.
  unfold response, ApiRestaurantsNearby.loader. fold lat lng distance.
  assert (isNaN distance = true ->
          (distance <= of_Z 0)%js || (of_Z 500 < distance)%js = false) as Hnan
    by (now destruct distance).
  destruct (isNaN lat || isNaN lng); [RouteFacts.rejected|].
  destruct ((lat < of_Z (-90))%js || (of_Z 90 < lat)%js); [RouteFacts.rejected|].
  destruct ((lng < of_Z (-180))%js || (of_Z 180 < lng)%js); [RouteFacts.rejected|].
  destruct ((distance <= of_Z 0)%js || (of_Z 500 < distance)%js).
  { cbn [Response.status Response.json default orb].
    repeat split; auto. intros _ Hd. now apply Hnan in Hd. }
  match goal with
  | |- context [match ?q with Ok _ => _ | Err _ => _ end] => destruct q
  end; cbn [Response.status Response.json default orb];
    repeat split; try discriminate; auto.
Qed.

(** A request that passes the validation, with a limit [n] that is an
    integer from 0 up to the largest bigint, is answered 200: the body holds
    what
    [findRestaurantsNearby] returns for the parsed center, distance, rating
    and limit, the parameters as they were read, and the number of
    restaurants, at most [n]. The center of that query is a valid point, and
    the distance, when it is a number, lies in (0, 500] and bounds the
    distance of every restaurant in the answer. *)
Theorem restaurants_loader_success :
  forall ST_DistanceSphere global other_limit prisma searchParams n,
    let lat := parseFloat global
                 (or_else (URLSearchParams.get searchParams "lat") EmptyString) in
    let lng := parseFloat global
                 (or_else (URLSearchParams.get searchParams "lng") EmptyString) in
    let distance := parseFloat global
                 (or_else (URLSearchParams.get searchParams "distance") "5.0") in
    let minRating := parseFloat global
                 (or_else (URLSearchParams.get searchParams "minRating") "4.0") in
    let limit := parseInt global
                 (or_else (URLSearchParams.get searchParams "limit") "20") 10 in
    (isNaN lat || isNaN lng) ||
    ((lat < of_Z (-90))%js || (of_Z 90 < lat)%js) ||
    ((lng < of_Z (-180))%js || (of_Z 180 < lng)%js) ||
    ((distance <= of_Z 0)%js || (of_Z 500 < distance)%js) = false ->
    NumberPrototype.integer_value limit = Some n ->
    0 <= n < 2 ^ 63 ->
    exists restaurants,
      findRestaurantsNearby ST_DistanceSphere prisma
        {| latitude := lat; longitude := lng |}
        (Some distance) (Some minRating) (Some n) = Ok restaurants /\
      ApiRestaurantsNearby.loader ST_DistanceSphere global other_limit
        prisma searchParams =
      Response.json
        (ApiRestaurantsNearby.Success restaurants
           {| ApiRestaurantsNearby.Search.latitude := lat;
              ApiRestaurantsNearby.Search.longitude := lng;
              ApiRestaurantsNearby.Search.radiusKm := distance;
              ApiRestaurantsNearby.Search.minRating := minRating;
              ApiRestaurantsNearby.Search.limit := limit |}
           (Z.of_nat (List.length restaurants)))
        None /\
      Z.of_nat (List.length restaurants) <= n /\
      ((of_Z (-90) <= lat)%js = true /\ (lat <= of_Z 90)%js = true /\
       (of_Z (-180) <= lng)%js = true /\ (lng <= of_Z 180)%js = true) /\
      (isNaN distance = false ->
       (of_Z 0 < distance)%js = true /\ (distance <= of_Z 500)%js = true /\
       Forall (fun r => (RestaurantWithDistance.distance r
                         <= distance * of_Z 1000)%js = true) restaurants).
Proof.
  intros ST G other prisma params n lat lng distance minRating limit Hvalid Hint
    Hn.
  apply orb_false_iff in Hvalid as [Hvalid Hdist].
  apply orb_false_iff in Hvalid as [Hvalid Hlng].
  apply orb_false_iff in Hvalid as [Hnan Hlat].
  destruct (QueryFacts.findRestaurantsNearby_Ok ST prisma
              {| latitude := lat; longitude := lng |}
              (Some distance) (Some minRating) (Some n) Hn) as [restaurants Hq].
  exists restaurants. split; [exact Hq|].
  split; [|split; [|split]].
  - unfold ApiRestaurantsNearby.loader. fold lat lng distance minRating limit.
    now rewrite Hnan, Hlat, Hlng, Hdist, Hint, Hq.
  - now apply QueryFacts.findRestaurantsNearby_inv in Hq as (Hlen & _).
  - apply orb_false_iff in Hnan as [Nlat Nlng].
    apply orb_false_iff in Hlat as [Hlat1 Hlat2].
    apply orb_false_iff in Hlng as [Hlng1 Hlng2].
    repeat split; apply RouteFacts.not_ltb_leb; auto.
  - intros Ndist. apply orb_false_iff in Hdist as [Hd1 Hd2].
    split; [apply RouteFacts.not_leb_ltb; auto|].
    split; [apply RouteFacts.not_ltb_leb; auto|].
    apply QueryFacts.findRestaurantsNearby_inv in Hq as (_ & _ & Hall).
    eapply Forall_impl; [|exact Hall]. intros x (Hx & _). cbn [default] in Hx.
    apply PgFacts.float8_le_leb; [|exact Hx].
    now apply QueryFacts.radiusMeters_not_NaN.
Qed.

(** A limit that is a negative integer is not turned down by the loader:
    the request reaches the database, the query fails and the answer is 500,
    "Database error". *)
Theorem restaurants_loader_negative_limit :
  forall ST_DistanceSphere global other_limit prisma searchParams n,
    let lat := parseFloat global
                 (or_else (URLSearchParams.get searchParams "lat") EmptyString) in
    let lng := parseFloat global
                 (or_else (URLSearchParams.get searchParams "lng") EmptyString) in
    let distance := parseFloat global
                 (or_else (URLSearchParams.get searchParams "distance") "5.0") in
    let limit := parseInt global
                 (or_else (URLSearchParams.get searchParams "limit") "20") 10 in
    (isNaN lat || isNaN lng) ||
    ((lat < of_Z (-90))%js || (of_Z 90 < lat)%js) ||
    ((lng < of_Z (-180))%js || (of_Z 180 < lng)%js) ||
    ((distance <= of_Z 0)%js || (of_Z 500 < distance)%js) = false ->
    NumberPrototype.integer_value limit = Some n ->
    n < 0 ->
    ApiRestaurantsNearby.loader ST_DistanceSphere global other_limit
      prisma searchParams =
    Response.json
      (ApiRestaurantsNearby.Failure "Database error"
         "Failed to fetch restaurants. Please try again later." None)
      (Some 500).
Proof.
  intros ST G other prisma params n lat lng distance limit Hvalid Hint Hn.
  apply orb_false_iff in Hvalid as [Hvalid Hdist].
  apply orb_false_iff in Hvalid as [Hvalid Hlng].
  apply orb_false_iff in Hvalid as [Hnan Hlat].
  unfold ApiRestaurantsNearby.loader. fold lat lng distance limit.
  rewrite Hnan, Hlat, Hlng, Hdist, Hint.
  unfold findRestaurantsNearby, Pg.limit. cbn [default].
  destruct (Z.ltb_spec n 0); [reflexivity|lia].
Qed.

Lemma restaurants_loader_success_witness :
  exists restaurants,
    ApiRestaurantsNearby.loader Examples.flat_distance RouteExamples.global
      (fun _ _ _ _ _ => RouteExamples.refuse) Examples.db
      [("lat", "37"); ("lng", "-122"); ("distance", "200")]%string
    = Response.json
        (ApiRestaurantsNearby.Success restaurants
           {| ApiRestaurantsNearby.Search.latitude := of_Z 37;
              ApiRestaurantsNearby.Search.longitude := of_Z (-122);
              ApiRestaurantsNearby.Search.radiusKm := of_Z 200;
              ApiRestaurantsNearby.Search.minRating := of_Z 4;
              ApiRestaurantsNearby.Search.limit := of_Z 20 |}
           2)
        None /\
    map RestaurantWithDistance.name restaurants
      = ["The Flying Burger"%string; "Runway Diner"%string].
Proof.
  destruct (restaurants_loader_success Examples.flat_distance
              RouteExamples.global (fun _ _ _ _ _ => RouteExamples.refuse)
              Examples.db
              [("lat", "37"); ("lng", "-122"); ("distance", "200")]%string 20)
    as (restaurants & Hq & Hresponse & _).
  - vm_compute. reflexivity.
  - vm_compute. reflexivity.
  - lia.
  - exists restaurants. rewrite Hresponse.
    vm_compute in Hq. injection Hq as <-. split; vm_compute; reflexivity.
Defined.

Lemma restaurants_loader_negative_limit_witness :
  Response.status
    (ApiRestaurantsNearby.loader Examples.flat_distance RouteExamples.global
       (fun _ _ _ _ _ => RouteExamples.refuse) Examples.db
       [("lat", "37"); ("lng", "-122"); ("limit", "-1")]%string) = 500.
Proof.
  rewrite (restaurants_loader_negative_limit Examples.flat_distance
             RouteExamples.global (fun _ _ _ _ _ => RouteExamples.refuse)
             Examples.db
             [("lat", "37"); ("lng", "-122"); ("limit", "-1")]%string (-1)).
  - reflexivity.
  - vm_compute. reflexivity.
  - vm_compute. reflexivity.
  - lia.
Defined.

(** ** The route /api/airports/nearby *)

(** The loader of /api/airports/nearby validates as that of the restaurants
    does, with 1000 kilometers as the largest distance: it answers 400
    exactly when the latitude or the longitude does not parse or is out of
    range, or the distance is at most 0 or above 1000, without consulting the
    database; every other request is answered 200 or 500, a distance that
    does not parse included. *)
Theorem airports_loader_validation :
  forall ST_DistanceSphere global other_limit prisma searchParams,
    let lat := parseFloat global
                 (or_else (URLSearchParams.get searchParams "lat") EmptyString) in
    let lng := parseFloat global
                 (or_else (URLSearchParams.get searchParams "lng") EmptyString) in
    let distance := parseFloat global
                 (or_else (URLSearchParams.get searchParams "distance") "50.0") in
    let response :=
      ApiAirportsNearby.loader ST_DistanceSphere global other_limit
        prisma searchParams in
    (Response.status response = 400 <->
     (isNaN lat || isNaN lng) ||
     ((lat < of_Z (-90))%js || (of_Z 90 < lat)%js) ||
     ((lng < of_Z (-180))%js || (of_Z 180 < lng)%js) ||
     ((distance <= of_Z 0)%js || (of_Z 1000 < distance)%js) = true) /\
    (Response.status response = 400 ->
     forall other_limit' prisma',
       ApiAirportsNearby.loader ST_DistanceSphere global other_limit'
         prisma' searchParams = response) /\
    (Response.status response = 400 \/ Response.status response = 200 \/
     Response.status response = 500) /\
    ((isNaN lat || isNaN lng) ||
     ((lat < of_Z (-90))%js || (of_Z 90 < lat)%js) ||
     ((lng < of_Z (-180))%js || (of_Z 180 < lng)%js) = false ->
     isNaN distance = true -> Response.status response <> 400).
Proof.
  intros ST G other prisma params lat lng distance response.
  unfold response, ApiAirportsNearby.loader. fold lat lng distance.
  assert (isNaN distance = true ->
          (distance <= of_Z 0)%js || (of_Z 1000 < distance)%js = false) as Hnan
    by (now destruct distance).
  destruct (isNaN lat || isNaN lng); [RouteFacts.rejected|].
  destruct ((lat < of_Z (-90))%js || (of_Z 90 < lat)%js); [RouteFacts.rejected|].
  destruct ((lng < of_Z (-180))%js || (of_Z 180 < lng)%js); [RouteFacts.rejected|].
  destruct ((distance <= of_Z 0)%js || (of_Z 1000 < distance)%js).
  { cbn [Response.status Response.json default orb].
    repeat split; auto. intros _ Hd. now apply Hnan in Hd. }
  match goal with
  | |- context [match ?q with Ok _ => _ | Err _ => _ end] => destruct q
  end; cbn [Response.status Response.json default orb];
    repeat split; try discriminate; auto.
Qed.

(** A request that passes the validation of /api/airports/nearby with a
    limit [n] that is an integer is answered 500 when [n] is negative, and
    200 when [n] is from 0 up to the largest bigint, with what
    [findAirportsNearby] returns for the parsed center, distance and limit:
    at most [n] airports, nearest first, each within the distance when the
    distance is a number. *)
Theorem airports_loader_answer :
  forall ST_DistanceSphere global other_limit prisma searchParams n,
    let lat := parseFloat global
                 (or_else (URLSearchParams.get searchParams "lat") EmptyString) in
    let lng := parseFloat global
                 (or_else (URLSearchParams.get searchParams "lng") EmptyString) in
    let distance := parseFloat global
                 (or_else (URLSearchParams.get searchParams "distance") "50.0") in
    let limit := parseInt global
                 (or_else (URLSearchParams.get searchParams "limit") "20") 10 in
    let response :=
      ApiAirportsNearby.loader ST_DistanceSphere global other_limit
        prisma searchParams in
    (isNaN lat || isNaN lng) ||
    ((lat < of_Z (-90))%js || (of_Z 90 < lat)%js) ||
    ((lng < of_Z (-180))%js || (of_Z 180 < lng)%js) ||
    ((distance <= of_Z 0)%js || (of_Z 1000 < distance)%js) = false ->
    NumberPrototype.integer_value limit = Some n ->
    (n < 0 ->
     response =
     Response.json
       (ApiAirportsNearby.Failure "Database error"
          "Failed to fetch airports. Please try again later." None)
       (Some 500)) /\
    (0 <= n < 2 ^ 63 ->
     exists airports,
       findAirportsNearby ST_DistanceSphere prisma
         {| latitude := lat; longitude := lng |}
         (Some distance) (Some n) = Ok airports /\
       response =
       Response.json
         (ApiAirportsNearby.Success airports
            {| ApiAirportsNearby.Search.latitude := lat;
               ApiAirportsNearby.Search.longitude := lng;
               ApiAirportsNearby.Search.radiusKm := distance;
               ApiAirportsNearby.Search.limit := limit |}
            (Z.of_nat (List.length airports)))
         None /\
       Z.of_nat (List.length airports) <= n /\
       StronglySorted
         (fun a b => Pg.float8_le (AirportWithDistance.distance a)
                                  (AirportWithDistance.distance b) = true)
         airports /\
       (isNaN distance = false ->
        (of_Z 0 < distance)%js = true /\ (distance <= of_Z 1000)%js = true /\
        Forall (fun a => (AirportWithDistance.distance a
                          <= distance * of_Z 1000)%js = true) airports)).
Proof.
  intros ST G other prisma params n lat lng distance limit response Hvalid Hint.
  apply orb_false_iff in Hvalid as [Hvalid Hdist].
  apply orb_false_iff in Hvalid as [Hvalid Hlng].
  apply orb_false_iff in Hvalid as [Hnan Hlat].
  unfold response, ApiAirportsNearby.loader. fold lat lng distance limit.
  rewrite Hnan, Hlat, Hlng, Hdist, Hint. split; intros Hn.
  - unfold findAirportsNearby, Pg.limit. cbn [default].
    destruct (Z.ltb_spec n 0); [reflexivity|lia].
  - destruct (QueryFacts.findAirportsNearby_Ok ST prisma
                {| latitude := lat; longitude := lng |}
                (Some distance) (Some n) Hn) as [airports Hq].
    exists airports. rewrite Hq. split; [reflexivity|]. split; [reflexivity|].
    apply QueryFacts.findAirportsNearby_inv in Hq as (Hlen & Hs & Hall).
    split; [exact Hlen|]. split; [exact Hs|].
    intros Ndist. apply orb_false_iff in Hdist as [Hd1 Hd2].
    split; [apply RouteFacts.not_leb_ltb; auto|].
    split; [apply RouteFacts.not_ltb_leb; auto|].
    eapply Forall_impl; [|exact Hall]. intros x (Hx & _). cbn [default] in Hx.
    apply PgFacts.float8_le_leb; [|exact Hx].
    now apply QueryFacts.radiusMeters_not_NaN.
Qed.

Lemma airports_loader_answer_witness :
  exists airports,
    ApiAirportsNearby.loader Examples.flat_distance RouteExamples.global
      (fun _ _ _ _ => RouteExamples.refuse) Examples.db
      [("lat", "37"); ("lng", "-122"); ("limit", "5")]%string
    = Response.json
        (ApiAirportsNearby.Success airports
           {| ApiAirportsNearby.Search.latitude := of_Z 37;
              ApiAirportsNearby.Search.longitude := of_Z (-122);
              ApiAirportsNearby.Search.radiusKm := of_Z 50;
              ApiAirportsNearby.Search.limit := of_Z 5 |}
           1)
        None /\
    map AirportWithDistance.code airports = ["KSFO"%string].
Proof.
  destruct (airports_loader_answer Examples.flat_distance
              RouteExamples.global (fun _ _ _ _ => RouteExamples.refuse)
              Examples.db
              [("lat", "37"); ("lng", "-122"); ("limit", "5")]%string 5)
    as (_ & Hok).
  - vm_compute. reflexivity.
  - vm_compute. reflexivity.
  - destruct (Hok ltac:(lia)) as (airports & Hq & Hresponse & _).
    exists airports. rewrite Hresponse.
    vm_compute in Hq. injection Hq as <-. split; vm_compute; reflexivity.
Defined.

(** ** The route /api/airports/:code *)

Module TrimFacts.

Import StringPrototype.

Lemma trimStart_blank s : all_white_space s -> trimStart s = EmptyString.
Proof.
  unfold all_white_space.
  induction s as [|c s IH]; cbn; [reflexivity|]. intros H.
  inversion H as [|? ? Hc Hs]; subst. rewrite Hc. now apply IH.
Qed.

Lemma trimEnd_empty s : trimEnd s = EmptyString -> all_white_space s.
Proof.
  unfold all_white_space.
  induction s as [|c s IH]; cbn; [constructor|].
  destruct (trimEnd s); [|discriminate].
  destruct (is_white_space c) eqn:Hc; [|discriminate].
  intros _. constructor; [exact Hc|now apply IH].
Qed.

Lemma trimStart_all_white_space s :
  all_white_space (trimStart s) -> all_white_space s.
Proof.
  unfold all_white_space.
  induction s as [|c s IH]; cbn; [easy|].
  destruct (is_white_space c) eqn:Hc; [|easy].
  intros H. constructor; [exact Hc|now apply IH].
Qed.

(** The test the loader makes on the code holds exactly for the codes made
    of white space only, the empty code among them. *)
Lemma blank_iff code :
  match code with EmptyString => true | _ => false end
  || (String.length (trim code) =? 0)%nat = true
  <-> all_white_space code.
Proof.
  split.
  - intros H. apply orb_true_iff in H as [H|H].
    + destruct code; [constructor|discriminate].
    + apply trimStart_all_white_space, trimEnd_empty.
      apply Nat.eqb_eq in H. unfold trim in H.
      now destruct (trimEnd (trimStart code)).
  - intros H. apply orb_true_iff. right.
    unfold trim. now rewrite (trimStart_blank code H).
Qed.

End TrimFacts.

(** The loader of /api/airports/:code turns down, with 400 and "Invalid
    airport code", exactly the codes made of white space only, the empty
    code among them, whatever the query parameters and the database hold. *)
Theorem airport_loader_blank_code :
  forall ST_DistanceSphere global prisma code searchParams,
    StringPrototype.all_white_space code <->
    ApiAirportsCode.loader ST_DistanceSphere global prisma code searchParams =
    Response.json
      (ApiAirportsCode.Failure "Invalid airport code" "Airport code is required"
         (Some "/api/airports/KSFO"%string) None)
      (Some 400).
Proof.
  intros ST G prisma code params. rewrite <- TrimFacts.blank_iff.
  unfold ApiAirportsCode.loader.
  destruct (_ || (String.length (StringPrototype.trim code) =? 0)%nat);
    [now split|].
  split; [discriminate|].
  destruct (_ || _); [discriminate|].
  destruct (Pg.limit 1 _) as [[|airport l]|e]; try discriminate.
  destruct (findRestaurantsNearAirport _ _ _ _ _); discriminate.
Qed.



(** ** The route /map *)

(** The loader of /map validates nothing and asks for the restaurants rated
    at least 4 within the radius, at most 50, and for the airports within
    twice the radius, at most 20. When both queries return, the points of
    interest are the restaurants, nearest first, followed by the airports,
    nearest first: at most 70 points, whose two counts are the lengths of the
    two lists; every restaurant among them has a [googlePlaceId] that is a
    string; and when the radius is a number every restaurant lies within
    [radius * 1000] meters of the center and every airport within
    [(radius * 2) * 1000]. The center of the answer is the parsed one,
    whether the queries return or not. *)
Theorem map_loader_answer :
  forall ST_DistanceSphere global prisma searchParams,
    let lat := parseFloat global
                 (or_else (URLSearchParams.get searchParams "lat") "39.8283") in
    let lng := parseFloat global
                 (or_else (URLSearchParams.get searchParams "lng") "-98.5795") in
    let radius := parseFloat global
                 (or_else (URLSearchParams.get searchParams "radius") "50") in
    let point := {| latitude := lat; longitude := lng |} in
    let data := MapRoute.loader ST_DistanceSphere global prisma searchParams in
    (forall restaurants airports,
       findRestaurantsNearby ST_DistanceSphere prisma point
         (Some radius) (Some (of_Z 4)) (Some 50) = Ok restaurants ->
       findAirportsNearby ST_DistanceSphere prisma point
         (Some (radius * of_Z 2)%js) (Some 20) = Ok airports ->
       MapRoute.LoaderData.pois data =
         map MapRoute.restaurantPOI restaurants ++
         map MapRoute.airportPOI airports /\
       MapRoute.LoaderData.restaurants data = Z.of_nat (List.length restaurants) /\
       MapRoute.LoaderData.airports data = Z.of_nat (List.length airports) /\
       MapRoute.LoaderData.restaurants data <= 50 /\
       MapRoute.LoaderData.airports data <= 20 /\
       Z.of_nat (List.length (MapRoute.LoaderData.pois data)) <= 70 /\
       Forall (fun poi =>
                 match MapRoute.POI.data poi with
                 | MapRoute.RestaurantData r =>
                     exists id, RestaurantWithDistance.googlePlaceId r = Some id
                 | MapRoute.AirportData _ => True
                 end) (MapRoute.LoaderData.pois data) /\
       (isNaN radius = false ->
        Forall (fun r => (RestaurantWithDistance.distance r
                          <= radius * of_Z 1000)%js = true) restaurants /\
        Forall (fun a => (AirportWithDistance.distance a
                          <= radius * of_Z 2 * of_Z 1000)%js = true) airports)) /\
    MapRoute.LoaderData.center data =
      {| MapRoute.Position.lat := lat; MapRoute.Position.lng := lng |}.
Proof.
  intros ST G prisma params lat lng radius point data.
  unfold data, MapRoute.loader. fold lat lng radius point.
  split.
  - intros restaurants airports Hr Ha. rewrite Hr, Ha.
    cbn [MapRoute.LoaderData.pois MapRoute.LoaderData.restaurants
         MapRoute.LoaderData.airports].
    apply QueryFacts.findRestaurantsNearby_inv in Hr as (Hlr & _ & Hallr).
    apply QueryFacts.findAirportsNearby_inv in Ha as (Hla & _ & Halla).
    cbn [default] in Hlr, Hla, Hallr, Halla.
    split; [reflexivity|]. split; [reflexivity|]. split; [reflexivity|].
    split; [exact Hlr|]. split; [exact Hla|]. split; [|split].
    + rewrite length_app, !length_map. lia.
    + apply Forall_app. split; apply Forall_forall; intros poi Hpoi;
        apply in_map_iff in Hpoi as (x & <- & _); cbn; eauto.
    + intros Hradius.
      assert (isNaN (radius * of_Z 2)%js = false) as Hdouble.
      { change (of_Z 2) with (S754_finite false 4503599627370496 (-51)).
        now apply F64Facts.mul_finite_not_NaN. }
      split.
      * eapply Forall_impl; [|exact Hallr]. intros x (Hx & _).
        apply PgFacts.float8_le_leb; [|exact Hx].
        now apply QueryFacts.radiusMeters_not_NaN.
      * eapply Forall_impl; [|exact Halla]. intros x (Hx & _).
        apply PgFacts.float8_le_leb; [|exact Hx].
        now apply QueryFacts.radiusMeters_not_NaN.
  - destruct (findRestaurantsNearby _ _ _ _ _ _);
      [destruct (findAirportsNearby _ _ _ _ _)|]; reflexivity.
Qed.
